(** * Favourite movies: a shallow embedding of [main.py]

    The program is one Flask module: a [Movie] table kept by SQLAlchemy in
    SQLite, five view functions ([home], [add_movie], [rate_movie],
    [delete_movie], [find_movie]) and two calls to the movie provider.

    The views are embedded as functions from a request and a world (the
    table, the provider calls sent so far, the flashed messages) to an
    outcome and a new world.  What lies outside the module is kept at its
    interface: the builtin [float], the database's matching of a key given
    as text, and the provider's replies are fields of [Runtime].

    Of SQLite the embedding keeps what the views rely on: a table keyed by
    the primary key, the UNIQUE and NOT NULL columns, the key given to a new
    row, NULL sorting below every number, and a NaN being stored as NULL.
    Rows of equal rating come out of the query in key order. *)

From Stdlib Require Import ZArith Floats String Ascii Lia.
From stdpp Require Import gmap strings list sorting.
Open Scope Z_scope.

(** ** Python builtins the views call *)

Module Py.

(** [s.split(sep)] for a separator of one character: the pieces between
    the occurrences of [sep], never an empty list. *)
Fixpoint split (sep : ascii) (s : string) : list string :=
  match s with
  | EmptyString => [EmptyString]
  | String c rest =>
      if Ascii.eqb c sep then EmptyString :: split sep rest
      else match split sep rest with
           | w :: ws => String c w :: ws
           | [] => [String c EmptyString]
           end
  end.

(** Truth value of a [str]-or-[None] value, as in [if movie_api_id:]. *)
Definition truthy (v : option string) : bool :=
  match v with
  | Some EmptyString | None => false
  | Some (String _ _) => true
  end.

(** The white space [str.strip()] removes, read in the UTF-8 bytes of the
    text.  One byte: the ASCII characters 9 to 13 and 28 to 32. *)
Definition isspace (c : ascii) : bool :=
  let n := N_of_ascii c in
  ((9 <=? n) && (n <=? 13) || (28 <=? n) && (n <=? 32))%N.

(** Two bytes: U+0085 and U+00A0. *)
Definition isspace2 (c1 c2 : ascii) : bool :=
  let n1 := N_of_ascii c1 in
  let n2 := N_of_ascii c2 in
  ((n1 =? 194) && ((n2 =? 133) || (n2 =? 160)))%N.

(** Three bytes: U+1680, U+2000 to U+200A, U+2028, U+2029, U+202F, U+205F
    and U+3000. *)
Definition isspace3 (c1 c2 c3 : ascii) : bool :=
  let n1 := N_of_ascii c1 in
  let n2 := N_of_ascii c2 in
  let n3 := N_of_ascii c3 in
  ((n1 =? 225) && (n2 =? 154) && (n3 =? 128)
   || (n1 =? 226) && (n2 =? 128)
      && ((128 <=? n3) && (n3 <=? 138) || (n3 =? 168) || (n3 =? 169) || (n3 =? 175))
   || (n1 =? 226) && (n2 =? 129) && (n3 =? 159)
   || (n1 =? 227) && (n2 =? 128) && (n3 =? 128))%N.

(** [bool(s.strip())]: some character of [s] is not white space. *)
Fixpoint strip_truthy (s : string) : bool :=
  match s with
  | EmptyString => false
  | String c1 r1 =>
      if isspace c1 then strip_truthy r1
      else
        match r1 with
        | EmptyString => true
        | String c2 r2 =>
            if isspace2 c1 c2 then strip_truthy r2
            else
              match r2 with
              | EmptyString => true
              | String c3 r3 =>
                  if isspace3 c1 c2 c3 then strip_truthy r3 else true
              end
        end
  end.



End Py.

(** ** Exceptions that leave a view function *)

Inductive Exception :=
| NotFound            (* abort(404), raised by [db.get_or_404] *)
| MethodNotAllowed    (* 405, raised by the URL map *)
| TypeError
| ValueError
| KeyError (key : string)
| AttributeError
| IndexError
| IntegrityError      (* sqlalchemy.exc.IntegrityError *)
| RequestException    (* requests: the call itself failed *)
| JSONDecodeError.

(** ** SQLite's REAL values *)

Module Real.

(** What a REAL column gives back for a number written to it.  A NaN bound
    to a statement parameter is stored as NULL; a whole number is kept as an
    integer, which loses the sign of a negative zero; any other number comes
    back as it went in. *)
Definition bind (x : float) : option float :=
  if is_nan x then None
  else if (x =? 0)%float then Some 0%float
  else Some x.

(** Comparison of two column values; NULL is smaller than every number. *)
Definition lt (a b : option float) : bool :=
  match a, b with
  | None, Some _ => true
  | Some x, Some y => (x <? y)%float
  | _, None => false
  end.

(** A column value that a row can hold: NULL or a number, never NaN. *)
Definition storable (a : option float) : Prop :=
  match a with
  | Some x => is_nan x = false
  | None => True
  end.

End Real.

(** ** The table *)

(** A row of [class Movie(db.Model)].  The primary key [id] is the key under
    which the row is kept in the table ([gmap Z Movie]); a loaded object is
    the pair of its key and its row.  [year] holds what the view passes for
    it, the text in front of the first dash of the release date; that the
    INTEGER column then keeps such text as a number when it is one is
    SQLite's doing and is not part of the embedding.  [rating], [ranking] and
    [review] are the nullable columns. *)
Record Movie := {
  title : string;
  year : string;
  description : string;
  rating : option float;
  ranking : option Z;
  review : option string;
  img_url : string
}.

Definition set_ranking (r : option Z) (m : Movie) : Movie :=
  {| title := title m; year := year m; description := description m;
     rating := rating m; ranking := r; review := review m;
     img_url := img_url m |}.

Definition set_rating_review (x : option float) (t : option string)
    (m : Movie) : Movie :=
  {| title := title m; year := year m; description := description m;
     rating := x; ranking := ranking m; review := t;
     img_url := img_url m |}.

(** The object loaded for a key, and the rows in the order of a table scan:
    ascending primary key. *)
Definition row_of (s : gmap Z Movie) (k : Z) : option (Z * Movie) :=
  (k,.) <$> s !! k.

Definition table_rows (s : gmap Z Movie) : list (Z * Movie) :=
  omap (row_of s) (merge_sort Z.le (elements (dom s))).

(** [ORDER BY movie.rating DESC].  SQLite leaves the order of rows with
    equal ratings open; the embedding keeps them in scan order (a stable
    insertion sort over [table_rows]). *)
Fixpoint insert_desc (x : Z * Movie) (l : list (Z * Movie)) : list (Z * Movie) :=
  match l with
  | [] => [x]
  | y :: l' =>
      if Real.lt (rating x.2) (rating y.2) then y :: insert_desc x l'
      else x :: l
  end.

Definition order_by_rating_desc (s : gmap Z Movie) : list (Z * Movie) :=
  foldr insert_desc [] (table_rows s).

(** The key SQLite gives a new row: 1 in an empty table, else one more than
    the largest key.  (At the largest key a 64-bit integer can hold SQLite
    looks for an unused key at random instead; the properties below say of a
    new key only that it was unused, except where they name [next_id].) *)
Definition next_id (s : gmap Z Movie) : Z :=
  match elements (dom s) with
  | [] => 1
  | k :: ks => 1 + foldr Z.max k ks
  end.

(** [db.session.add(new_movie); db.session.commit()]: the INSERT, with the
    UNIQUE constraint on [title]. *)
Definition title_taken (t : string) (s : gmap Z Movie) : bool :=
  bool_decide (Exists (λ km, title km.2 = t) (map_to_list s)).

Definition insert_movie (m : Movie) (s : gmap Z Movie)
    : Exception + (Z * gmap Z Movie) :=
  if title_taken (title m) s then inl IntegrityError
  else inr (next_id s, <[next_id s := m]> s).

(** ** Requests, responses, the world *)

Inductive Method := GET | HEAD | POST | PUT | PATCH | DELETE | OPTIONS.

Global Instance Method_eq_dec : EqDecision Method.
Proof. solve_decision. Defined.

(** The parts of a request the views read: [request.method],
    [request.args.get("id")], whether the form's CSRF token checks, and the
    [data] of the form fields. *)
Record Request := {
  method : Method;
  arg_id : option string;
  csrf_ok : bool;
  title_data : option string;
  rating_data : option string;
  review_data : option string
}.

(** A decoded JSON value, as [response.json()] builds it. *)
#[local] Unset Elimination Schemes.
Inductive json :=
| JNull
| JBool (b : bool)
| JInt (n : Z)
| JFloat (x : float)
| JStr (s : string)
| JArr (items : list json)
| JObj (members : list (string * json)).
#[local] Set Elimination Schemes.

Record HttpCall := {
  url : string;
  params : list (string * option string)
}.

(** What [requests.get] gives: the call fails, or a reply with its status
    and its body, [None] when the body is not JSON and otherwise the decoded
    object, keyed by member name; or a reply whose body is JSON but no
    object (a list, a text, a number, null), which cannot be indexed by a
    member name. *)
Inductive HttpResult (B : Type) :=
| Unreachable
| Reply (status_code : Z) (body : option (gmap string B))
| ReplyOther (status_code : Z).
Arguments Unreachable {B}.
Arguments Reply {B} status_code body.
Arguments ReplyOther {B} status_code.

(** What the module takes from its surroundings.  [py_float] is the builtin
    [float] on text ([None]: ValueError), which rejects the empty text;
    [pk_of_text] is the key the database matches a textual [id] to;
    [search_api] and [info_api] are the provider's two endpoints, the
    members of a detail reply being text or null. *)
Record Runtime := {
  API_KEY : string;
  py_float : string → option float;
  py_float_empty : py_float "" = None;
  pk_of_text : string → option Z;
  search_api : HttpCall → HttpResult json;
  info_api : HttpCall → HttpResult (option string)
}.

Record World := {
  db : gmap Z Movie;
  sent : list HttpCall;
  flashed : list string
}.

Definition set_db (s : gmap Z Movie) (w : World) : World :=
  {| db := s; sent := sent w; flashed := flashed w |}.

Definition send (c : HttpCall) (w : World) : World :=
  {| db := db w; sent := sent w ++ [c]; flashed := flashed w |}.

Definition flash (msg : string) (w : World) : World :=
  {| db := db w; sent := sent w; flashed := flashed w ++ [msg] |}.

Inductive Target := url_for_home | url_for_rate_movie (id : Z).

Inductive TemplateArgs :=
| args_movies (movies : list (Z * Movie))
| args_options (options : json)
| args_form
| args_movie_form (movie : Z * Movie)
| args_movie (movie : Z * Movie).

Inductive Response :=
| render_template (name : string) (args : TemplateArgs)
| redirect (target : Target)
| automatic_options.

(** How a view function ends: it returns a response, returns nothing, or an
    exception leaves it. *)
Inductive Outcome :=
| Returns (r : option Response)
| Raises (e : Exception).

(** ** Constants *)

Definition MOVIE_DB_SEARCH_URL : string := "https://api.themoviedb.org/3/search/movie".
Definition MOVIE_DB_INFO_URL : string := "https://api.themoviedb.org/3/movie".
Definition MOVIE_DB_IMAGE_URL : string := "https://image.tmdb.org/t/p/w500".

(** ** Forms *)

(** [FlaskForm.is_submitted]. *)
Definition is_submitted (req : Request) : bool :=
  match method req with
  | POST | PUT | PATCH | DELETE => true
  | _ => false
  end.

(** [DataRequired()]. *)
Definition DataRequired (data : option string) : bool :=
  match data with
  | Some s => Py.truthy data && Py.strip_truthy s
  | None => false
  end.

Module RateMovieForm.
(** [rating] and [review] carry no validator: only the token is checked. *)
Definition validate_on_submit (req : Request) : bool :=
  is_submitted req && csrf_ok req.
End RateMovieForm.

Module FindMovieForm.
Definition validate_on_submit (req : Request) : bool :=
  is_submitted req && (csrf_ok req && DataRequired (title_data req)).
End FindMovieForm.

(** ** Views *)

(** The loop of [home]: each object gets the next rank and is committed. *)
Fixpoint rank_loop (all_movies : list (Z * Movie)) (rank : Z)
    (s : gmap Z Movie) : list (Z * Movie) * gmap Z Movie :=
  match all_movies with
  | [] => ([], s)
  | (k, movie) :: rest =>
      let movie := set_ranking (Some rank) movie in
      let '(rest, s) := rank_loop rest (rank + 1) (<[k := movie]> s) in
      ((k, movie) :: rest, s)
  end.

Definition home (req : Request) (w : World) : Outcome * World :=
  let all_movies := order_by_rating_desc (db w) in
  let '(all_movies, s) := rank_loop all_movies 1 (db w) in
  (Returns (Some (render_template "index.html" (args_movies all_movies))),
   set_db s w).

(** An f-string field: [None] prints as its name. *)
Definition format (v : option string) : string :=
  match v with
  | Some s => s
  | None => "None"
  end.

Section views.
Context (rt : Runtime).

(** The arguments of the two [requests.get] calls. *)
Definition search_call (movie_title : option string) : HttpCall :=
  {| url := MOVIE_DB_SEARCH_URL;
     params := [("api_key", Some (API_KEY rt)); ("query", movie_title)] |}.

Definition info_call (movie_api_id : option string) : HttpCall :=
  {| url := (MOVIE_DB_INFO_URL ++ "/" ++ format movie_api_id)%string;
     params := [("api_key", Some (API_KEY rt));
                ("language", Some "en-US"%string)] |}.

Definition add_movie (req : Request) (w : World) : Outcome * World :=
  if FindMovieForm.validate_on_submit req then
    let movie_title := title_data req in
    let call := search_call movie_title in
    let w := send call w in
    match search_api rt call with
    | Unreachable => (Raises RequestException, w)
    | Reply _ None => (Raises JSONDecodeError, w)
    | ReplyOther _ => (Raises TypeError, w)
    | Reply _ (Some body) =>
        match body !! "results" with
        | None => (Raises (KeyError "results"), w)
        | Some data =>
            (Returns (Some (render_template "select.html" (args_options data))), w)
        end
    end
  else (Returns (Some (render_template "add.html" args_form)), w).

(** [db.get_or_404(Movie, movie_id)]. *)
Definition get_or_404 (s : gmap Z Movie) (ident : option string)
    : Exception + (Z * Movie) :=
  match ident ≫= pk_of_text rt with
  | Some k =>
      match s !! k with
      | Some movie => inr (k, movie)
      | None => inl NotFound
      end
  | None => inl NotFound
  end.

Definition rate_movie (req : Request) (w : World) : Outcome * World :=
  let movie_id := arg_id req in
  match get_or_404 (db w) movie_id with
  | inl e => (Raises e, w)
  | inr (k, movie) =>
      if RateMovieForm.validate_on_submit req then
        match rating_data req with
        | None => (Raises TypeError, w)
        | Some text =>
            match py_float rt text with
            | None => (Raises ValueError, w)
            | Some x =>
                let movie :=
                  set_rating_review (Real.bind x) (review_data req) movie in
                (Returns (Some (redirect url_for_home)),
                 set_db (<[k := movie]> (db w)) w)
            end
        end
      else
        (Returns (Some (render_template "edit.html" (args_movie_form (k, movie)))), w)
  end.

Definition delete_movie (req : Request) (w : World) : Outcome * World :=
  let movie_id := arg_id req in
  match get_or_404 (db w) movie_id with
  | inl e => (Raises e, w)
  | inr (k, movie) =>
      match method req with
      | POST =>
          (Returns (Some (redirect url_for_home)), set_db (delete k (db w)) w)
      | _ =>
          let w := flash "You are about to delete this movie." w in
          (Returns (Some (render_template "delete.html" (args_movie (k, movie)))), w)
      end
  end.

(** [data[key]] on the decoded detail object. *)
Definition getitem (data : gmap string (option string)) (key : string)
    : Exception + option string :=
  match data !! key with
  | Some v => inr v
  | None => inl (KeyError key)
  end.

(** The keyword arguments of [Movie(...)], evaluated in the order they are
    written, with the image base as a parameter; a null title or overview
    is refused by the NOT NULL columns when the row is inserted. *)
Definition new_movie (image_url : string)
    (data : gmap string (option string))
    : Exception + (option string * string * string * option string) :=
  match getitem data "title" with
  | inl e => inl e
  | inr t =>
  match getitem data "release_date" with
  | inl e => inl e
  | inr None => inl AttributeError
  | inr (Some release_date) =>
  match head (Py.split "-" release_date) with
  | None => inl IndexError
  | Some y =>
  match getitem data "poster_path" with
  | inl e => inl e
  | inr poster_path =>
  match getitem data "overview" with
  | inl e => inl e
  | inr d => inr (t, y, (image_url ++ format poster_path)%string, d)
  end end end end end.

Definition find_movie_with (image_url : string)
    (req : Request) (w : World) : Outcome * World :=
  let movie_api_id := arg_id req in
  if Py.truthy movie_api_id then
    let call := info_call movie_api_id in
    let w := send call w in
    match info_api rt call with
    | Unreachable => (Raises RequestException, w)
    | Reply _ None => (Raises JSONDecodeError, w)
    | ReplyOther _ => (Raises TypeError, w)
    | Reply _ (Some data) =>
        match new_movie image_url data with
        | inl e => (Raises e, w)
        | inr (Some t, y, img, Some d) =>
            let row := {| title := t; year := y; description := d;
                          rating := None; ranking := None; review := None;
                          img_url := img |} in
            match insert_movie row (db w) with
            | inl e => (Raises e, w)
            | inr (k, s) =>
                (Returns (Some (redirect (url_for_rate_movie k))), set_db s w)
            end
        | inr _ => (Raises IntegrityError, w)
        end
    end
  else (Returns None, w).

Definition find_movie : Request → World → Outcome * World :=
  find_movie_with MOVIE_DB_IMAGE_URL.

(** ** The URL map *)

(** What Flask makes of a view's return value: a view that returns nothing
    is a TypeError. *)
Definition make_response (r : Outcome * World) : Outcome * World :=
  match r with
  | (Returns None, w) => (Raises TypeError, w)
  | _ => r
  end.

(** [@app.route(rule, methods=...)]: OPTIONS is answered by Flask itself,
    HEAD goes where GET goes, any other method off the list is a 405. *)
Definition route (methods : list Method)
    (view : Request → World → Outcome * World)
    (req : Request) (w : World) : Outcome * World :=
  match method req with
  | OPTIONS => (Returns (Some automatic_options), w)
  | m =>
      if bool_decide (m ∈ methods)
         || (bool_decide (m = HEAD) && bool_decide (GET ∈ methods))
      then make_response (view req w)
      else (Raises MethodNotAllowed, w)
  end.

Definition app (path : string) (req : Request) (w : World) : Outcome * World :=
  if String.eqb path "/" then route [GET] home req w
  else if String.eqb path "/add" then route [GET; POST] add_movie req w
  else if String.eqb path "/edit" then route [GET; POST] rate_movie req w
  else if String.eqb path "/delete" then route [GET] delete_movie req w
  else if String.eqb path "/find" then route [GET] find_movie req w
  else (Raises NotFound, w).

End views.

(** ** Sample data *)

Module Sample.

(** The key written in decimal digits. *)
Definition digit (c : ascii) : option Z :=
  let n := Z.of_N (N_of_ascii c) in
  if (48 <=? n) && (n <=? 57) then Some (n - 48) else None.

Fixpoint decimal (acc : Z) (s : string) : option Z :=
  match s with
  | EmptyString => Some acc
  | String c rest => d ← digit c; decimal (10 * acc + d) rest
  end.

Definition key_of_text (s : string) : option Z :=
  match s with
  | EmptyString => None
  | _ => decimal 0 s
  end.

(** [float] on the few literals the examples use. *)
Definition float_of_text (s : string) : option float :=
  if String.eqb s "7.5" then Some 7.5%float
  else if String.eqb s "8.5" then Some 8.5%float
  else if String.eqb s "9.0" then Some 9%float
  else if String.eqb s "11.0" then Some 11%float
  else if String.eqb s "-1.0" then Some (-1)%float
  else None.

Definition dune_detail : gmap string (option string) :=
  <["title" := Some "Dune"%string]>
    (<["release_date" := Some "2021-10-22"%string]>
       (<["poster_path" := Some "/abc.jpg"%string]>
          {["overview" := Some "A duke's son leads desert warriors."%string]})).

Definition dune_hit : json :=
  JObj [("id", JInt 438631); ("title", JStr "Dune");
        ("release_date", JStr "2021-10-22"); ("poster_path", JStr "/abc.jpg");
        ("overview", JStr "A duke's son leads desert warriors.")].

(** A provider that answers. *)
Definition runtime : Runtime :=
  {| API_KEY := "k";
     py_float := float_of_text;
     py_float_empty := eq_refl;
     pk_of_text := key_of_text;
     search_api := λ _, Reply 200 (Some {["results" := JArr [dune_hit]]});
     info_api := λ _, Reply 200 (Some dune_detail) |}.

(** A provider that answers every search with status 500 and a body that
    still has a result list. *)
Definition runtime_500 : Runtime :=
  {| API_KEY := "k";
     py_float := float_of_text;
     py_float_empty := eq_refl;
     pk_of_text := key_of_text;
     search_api := λ _, Reply 500 (Some {["results" := JArr []]});
     info_api := λ _, Reply 500 None |}.

Definition movie (t : string) (x : option float) : Movie :=
  {| title := t; year := "2021"; description := ""; rating := x;
     ranking := None; review := None; img_url := "" |}.

(** Four rows, rated 9.0, 7.5, 7.5 and not at all, under keys 3, 1, 4, 2. *)
Definition table : gmap Z Movie :=
  <[3 := movie "Dune" (Some 9%float)]>
    (<[1 := movie "Alien" (Some 7.5%float)]>
       (<[4 := movie "Heat" (Some 7.5%float)]>
          {[2 := movie "Tenet" None]})).

Definition world : World := {| db := table; sent := []; flashed := [] |}.

Definition request (m : Method) (i : option string) : Request :=
  {| method := m; arg_id := i; csrf_ok := true; title_data := Some "Dune"%string;
     rating_data := Some "11.0"%string; review_data := Some "Great"%string |}.

Definition empty_world : World := {| db := ∅; sent := []; flashed := [] |}.

(** The rate form for row 1, sent with the rating text [text] and a review. *)
Definition rate_form (text : string) : Request :=
  {| method := POST; arg_id := Some "1"%string; csrf_ok := true;
     title_data := None; rating_data := Some text;
     review_data := Some "Great"%string |}.

Definition rate_1 : Request := rate_form "8.5".

(** The rate form sent with its rating left empty. *)
Definition empty_rating : Request := rate_form "".

(** [float] reading also the texts nan and -0.0. *)
Definition float_of_text_wide (s : string) : option float :=
  if String.eqb s "nan" then Some (0 / 0)%float
  else if String.eqb s "-0.0" then Some neg_zero
  else float_of_text s.

Definition runtime_wide : Runtime :=
  {| API_KEY := "k";
     py_float := float_of_text_wide;
     py_float_empty := eq_refl;
     pk_of_text := key_of_text;
     search_api := λ _, Reply 200 (Some {["results" := JArr [dune_hit]]});
     info_api := λ _, Reply 200 (Some dune_detail) |}.


(** The rate form for row 1 sent without a good token. *)
Definition forged_rating : Request :=
  {| method := POST; arg_id := Some "1"%string; csrf_ok := false;
     title_data := None; rating_data := Some "9.0"%string;
     review_data := None |}.

End Sample.

(** ** Notions the properties are stated with *)

(** [a] may stand before [b] in descending order of rating. *)
Definition not_below (a b : Z * Movie) : Prop :=
  Real.lt (rating a.2) (rating b.2) = false.

(** Every rating held by a row is NULL or a number. *)
Definition stored_ratings (s : gmap Z Movie) : Prop :=
  ∀ k m, s !! k = Some m → Real.storable (rating m).

(** The objects of [l] after the loop that starts at rank [r]. *)
Definition ranked (r : Z) (l : list (Z * Movie)) : list (Z * Movie) :=
  imap (λ i x, (x.1, set_ranking (Some (r + Z.of_nat i)) x.2)) l.

(** The rank a key is given by the pass, read back from the table. *)
Definition rank_after_home (req : Request) (w : World) (k : Z) : option Z :=
  db (home req w).2 !! k ≫= ranking.

(** The character [c] occurs in [s]. *)
Fixpoint occurs (c : ascii) (s : string) : bool :=
  match s with
  | EmptyString => false
  | String c' rest => Ascii.eqb c' c || occurs c rest
  end.

(** [y] is the part of [s] in front of its first dash: all of [s] when it
    has none. *)
Definition before_first_dash (y s : string) : Prop :=
  occurs "-" y = false ∧ (s = y ∨ ∃ rest, s = (y ++ String "-" rest)%string).

(** The key a request names, as the database reads its [id] argument. *)
Definition named_key (rt : Runtime) (req : Request) : option Z :=
  arg_id req ≫= pk_of_text rt.

(** [sep.join(l)], the inverse of [split]. *)
Fixpoint join (sep : ascii) (l : list string) : string :=
  match l with
  | [] => EmptyString
  | w :: ws =>
      match ws with
      | [] => w
      | _ :: _ => (w ++ String sep (join sep ws))%string
      end
  end.

(** No two rows carry the same title: what the UNIQUE column stands for. *)
Definition unique_titles (s : gmap Z Movie) : Prop :=
  ∀ k1 k2 m1 m2,
    s !! k1 = Some m1 → s !! k2 = Some m2 → title m1 = title m2 → k1 = k2.

(** [m'] is the row [m] up to the columns a view may write: rating, review
    and ranking. *)
Definition same_film (m m' : Movie) : Prop :=
  title m' = title m ∧ year m' = year m ∧
  description m' = description m ∧ img_url m' = img_url m.

(** The rules of the URL map. *)
Definition rules : list string := ["/"; "/add"; "/edit"; "/delete"; "/find"]%string.





(** Case analysis on the comparisons inside [SFcompare]. *)
Ltac cmp_cases :=
  repeat match goal with
  | |- context [Z.compare ?a ?b] => destruct (Z.compare_spec a b)
  | |- context [Pos.compare_cont Eq ?a ?b] =>
      change (Pos.compare_cont Eq a b) with (Pos.compare a b);
      destruct (Pos.compare_spec a b)
  end.

(** * Properties *)

(** ** The builtins on examples *)

Example split_date : Py.split "-" "2021-10-22" = ["2021"; "10"; "22"]%string.
Proof. reflexivity. Qed.

Example split_no_dash : Py.split "-" "2021" = ["2021"%string].
Proof. reflexivity. Qed.

Example split_empty : Py.split "-" "" = [""%string].
Proof. reflexivity. Qed.

Example split_leading_dash : Py.split "-" "-1" = [""; "1"]%string.
Proof. reflexivity. Qed.

Lemma split_not_nil (sep : ascii) (s : string) : Py.split sep s ≠ [].
Proof.
  destruct s as [|c s]; simpl; [done|].
  destruct (Ascii.eqb c sep); [done|]. by destruct (Py.split sep s).
Qed.

Example DataRequired_blank : DataRequired (Some "   "%string) = false.
Proof. reflexivity. Qed.

Example DataRequired_text : DataRequired (Some "Dune"%string) = true.
Proof. reflexivity. Qed.

Example bind_nan : Real.bind (0 / 0)%float = None.
Proof. reflexivity. Qed.

Example null_below_number : Real.lt None (Some (-1)%float) = true.
Proof. reflexivity. Qed.

(** ** Order of REAL values *)

Module RealFacts.

Lemma SFltb_asym a b : SFltb a b = true → SFltb b a = false.
Proof.
  unfold SFltb.
  destruct a as [sa|sa| |sa ma ea], b as [sb|sb| |sb mb eb]; simpl;
    try destruct sa; try destruct sb; simpl; try discriminate; try reflexivity;
    cmp_cases; simpl; intros; try discriminate; try reflexivity; subst; lia.
Qed.

Lemma SFltb_between a b c :
  b ≠ S754_nan → SFltb a c = true → SFltb a b = true ∨ SFltb b c = true.
Proof.
  unfold SFltb.
  destruct a as [sa|sa| |sa ma ea], b as [sb|sb| |sb mb eb],
    c as [sc|sc| |sc mc ec]; simpl; intros Hb; try congruence;
    try destruct sa; try destruct sb; try destruct sc; simpl;
    try discriminate; auto;
    cmp_cases; simpl; intros; try discriminate; auto; subst; lia.
Qed.

Lemma is_nan_Prim2SF x : is_nan x = false → Prim2SF x ≠ S754_nan.
Proof.
  unfold is_nan. rewrite FloatAxioms.eqb_spec. unfold SFeqb.
  intros H E. rewrite E in H. discriminate.
Qed.

Lemma ltb_asym (x y : float) : (x <? y)%float = true → (y <? x)%float = false.
Proof. rewrite !ltb_spec. apply SFltb_asym. Qed.

Lemma ltb_between (x y z : float) :
  is_nan y = false → (x <? z)%float = true →
  (x <? y)%float = true ∨ (y <? z)%float = true.
Proof. rewrite !ltb_spec. intros H. apply SFltb_between, is_nan_Prim2SF, H. Qed.

Lemma bind_storable x : Real.storable (Real.bind x).
Proof.
  unfold Real.bind. destruct (is_nan x) eqn:E; [done|].
  by destruct (x =? 0)%float.
Qed.

Lemma SFeqb_sym a b : SFeqb a b = SFeqb b a.
Proof.
  unfold SFeqb.
  destruct a as [sa|sa| |sa ma ea], b as [sb|sb| |sb mb eb]; simpl;
    try destruct sa; try destruct sb; simpl; try reflexivity;
    cmp_cases; simpl; try reflexivity; subst; lia.
Qed.

Lemma eqb_sym (x y : float) : (x =? y)%float = (y =? x)%float.
Proof. rewrite !FloatAxioms.eqb_spec. apply SFeqb_sym. Qed.

(** A number comes back from the column as the same number. *)
Lemma bind_same_number x :
  is_nan x = false → ∃ y, Real.bind x = Some y ∧ (y =? x)%float = true.
Proof.
  intros Hn. unfold Real.bind. rewrite Hn.
  destruct (x =? 0)%float eqn:E.
  - exists 0%float. split; [done|]. by rewrite eqb_sym.
  - exists x. split; [done|]. unfold is_nan in Hn.
    by apply negb_false_iff in Hn.
Qed.

(** Anything but NaN and zero comes back bit for bit. *)
Lemma bind_nonzero x :
  is_nan x = false → (x =? 0)%float = false → Real.bind x = Some x.
Proof. intros Hn Hz. unfold Real.bind. by rewrite Hn, Hz. Qed.

Lemma lt_asym a b : Real.lt a b = true → Real.lt b a = false.
Proof. destruct a, b; simpl; auto using ltb_asym. Qed.

Lemma lt_between a b c :
  Real.storable b → Real.lt a c = true → Real.lt a b = true ∨ Real.lt b c = true.
Proof.
  destruct a, b, c; simpl; auto using ltb_between.
Qed.

Lemma lt_null_r a : Real.lt a None = false.
Proof. by destruct a. Qed.

End RealFacts.

(** ** The query of [home] *)

Section query.
Implicit Types (s : gmap Z Movie) (l : list (Z * Movie)) (x : Z * Movie).

Lemma rows_of_keys s (ks : list Z) :
  (∀ k, k ∈ ks → is_Some (s !! k)) → (omap (row_of s) ks).*1 = ks.
Proof.
  induction ks as [|k ks IH]; intros Hks; [done|].
  destruct (Hks k) as [m Hm]; [left|].
  csimpl. unfold row_of at 1. rewrite Hm. csimpl. f_equal.
  apply IH. intros k' Hk'. apply Hks. by right.
Qed.

Lemma table_rows_keys s :
  (table_rows s).*1 = merge_sort Z.le (elements (dom s)).
Proof.
  apply rows_of_keys. intros k.
  rewrite merge_sort_Permutation, elem_of_elements, elem_of_dom. done.
Qed.

Lemma table_rows_NoDup s : NoDup (table_rows s).*1.
Proof.
  rewrite table_rows_keys, merge_sort_Permutation. apply NoDup_elements.
Qed.

Lemma elem_of_table_rows s k m : (k, m) ∈ table_rows s ↔ s !! k = Some m.
Proof.
  unfold table_rows. rewrite list_elem_of_omap. split.
  - intros (k' & _ & Hk'). unfold row_of in Hk'.
    destruct (s !! k') as [m'|] eqn:E; [|done].
    simpl in Hk'. by simplify_eq.
  - intros Hm. exists k. split.
    + rewrite merge_sort_Permutation, elem_of_elements, elem_of_dom. eauto.
    + unfold row_of. by rewrite Hm.
Qed.

(** Rows that change in place, each keeping its key, are scanned in the
    same order. *)
Lemma table_rows_fmap s s' (g : Z → Movie → Movie) :
  (∀ k, s' !! k = g k <$> s !! k) →
  table_rows s' = (λ x, (x.1, g x.1 x.2)) <$> table_rows s.
Proof.
  intros Hs'. unfold table_rows.
  assert (dom s' = dom s) as ->.
  { apply set_eq. intros k. rewrite !elem_of_dom, Hs'. apply fmap_is_Some. }
  induction (merge_sort Z.le (elements (dom s))) as [|k ks IH]; [done|].
  assert (row_of s' k = (λ x, (x.1, g x.1 x.2)) <$> row_of s k) as Hk.
  { unfold row_of. rewrite Hs'. by destruct (s !! k). }
  csimpl. rewrite Hk. destruct (row_of s k); csimpl; by rewrite IH.
Qed.

Lemma insert_desc_Permutation x l : insert_desc x l ≡ₚ x :: l.
Proof.
  induction l as [|y l IH]; simpl; [done|].
  destruct (Real.lt _ _); [|done].
  rewrite IH. apply Permutation_swap.
Qed.

Lemma sort_Permutation l : foldr insert_desc [] l ≡ₚ l.
Proof.
  induction l as [|x l IH]; simpl; [done|].
  by rewrite insert_desc_Permutation, IH.
Qed.

Lemma insert_desc_fmap (h : Z * Movie → Z * Movie) x l :
  (∀ y, rating (h y).2 = rating y.2) →
  insert_desc (h x) (h <$> l) = h <$> insert_desc x l.
Proof.
  intros Hh. induction l as [|y l IH]; csimpl; [done|].
  rewrite !Hh. destruct (Real.lt _ _); csimpl; [by rewrite IH|done].
Qed.

Lemma sort_fmap (h : Z * Movie → Z * Movie) l :
  (∀ y, rating (h y).2 = rating y.2) →
  foldr insert_desc [] (h <$> l) = h <$> foldr insert_desc [] l.
Proof.
  intros Hh. induction l as [|x l IH]; csimpl; [done|].
  by rewrite IH, insert_desc_fmap.
Qed.

Lemma insert_desc_Sorted x l :
  Sorted not_below l → Sorted not_below (insert_desc x l).
Proof.
  induction 1 as [|y l Hl IH Hy]; simpl; [by repeat constructor|].
  destruct (Real.lt _ _) eqn:E.
  - constructor; [done|].
    destruct Hy as [|z l Hz]; simpl.
    + constructor. by apply RealFacts.lt_asym.
    + destruct (Real.lt (rating x.2) (rating z.2));
        constructor; [done|by apply RealFacts.lt_asym].
  - constructor; [by constructor|]. by constructor.
Qed.

Lemma sort_Sorted l : Sorted not_below (foldr insert_desc [] l).
Proof.
  induction l as [|x l IH]; simpl; [constructor|].
  by apply insert_desc_Sorted.
Qed.

Lemma order_by_rating_desc_elem s k m :
  (k, m) ∈ order_by_rating_desc s ↔ s !! k = Some m.
Proof.
  unfold order_by_rating_desc.
  by rewrite sort_Permutation, elem_of_table_rows.
Qed.

Lemma order_by_rating_desc_NoDup s : NoDup (order_by_rating_desc s).*1.
Proof.
  unfold order_by_rating_desc.
  rewrite sort_Permutation. apply table_rows_NoDup.
Qed.

Lemma order_by_rating_desc_length s :
  length (order_by_rating_desc s) = size s.
Proof.
  unfold order_by_rating_desc. rewrite sort_Permutation.
  rewrite <-(length_fmap fst), table_rows_keys, merge_sort_Permutation.
  by rewrite <-size_dom.
Qed.

End query.

(** ** The ranking pass *)

Section ranking.
Implicit Types (s : gmap Z Movie) (l : list (Z * Movie)).

Lemma not_below_trans (a b c : Z * Movie) :
  Real.storable (rating b.2) →
  not_below a b → not_below b c → not_below a c.
Proof.
  unfold not_below. intros Hb Hab Hbc.
  destruct (Real.lt (rating a.2) (rating c.2)) eqn:E; [|done].
  destruct (RealFacts.lt_between _ _ _ Hb E); congruence.
Qed.

Lemma Sorted_not_below_strong l :
  Forall (λ x, Real.storable (rating x.2)) l →
  Sorted not_below l → StronglySorted not_below l.
Proof.
  intros Hst Hl. induction Hl as [|x l Hl IH Hx]; [constructor|].
  apply Forall_cons in Hst as [_ Hst]. specialize (IH Hst).
  constructor; [done|].
  destruct Hx as [|y l Hxy]; [constructor|].
  apply StronglySorted_inv in IH as [_ Hy].
  apply Forall_cons in Hst as [Hsty _].
  constructor; [done|].
  eapply Forall_impl; [exact Hy|]. intros z Hyz.
  by apply (not_below_trans x y z).
Qed.

Lemma StronglySorted_lookup {A} (R : relation A) (l : list A) i j a b :
  StronglySorted R l → (i < j)%nat →
  l !! i = Some a → l !! j = Some b → R a b.
Proof.
  intros Hl. revert i j. induction Hl as [|x l Hl IH Hx]; intros i j Hij Hi Hj.
  { by rewrite lookup_nil in Hi. }
  destruct j as [|j]; [lia|]. simpl in Hj.
  destruct i as [|i]; simpl in Hi.
  - simplify_eq. eapply Forall_forall; [exact Hx|].
    by eapply list_elem_of_lookup_2.
  - apply (IH i j); [lia|done..].
Qed.

Lemma order_by_rating_desc_sorted s i j a b :
  stored_ratings s → (i < j)%nat →
  order_by_rating_desc s !! i = Some a →
  order_by_rating_desc s !! j = Some b →
  not_below a b.
Proof.
  intros Hst. apply StronglySorted_lookup.
  apply Sorted_not_below_strong; [|apply sort_Sorted].
  apply Forall_forall. intros [k m] Hkm.
  apply order_by_rating_desc_elem in Hkm. by apply (Hst k m).
Qed.

Lemma rank_loop_fst l r s : (rank_loop l r s).1 = ranked r l.
Proof.
  revert r s. induction l as [|[k m] l IH]; intros r s; [done|].
  simpl. specialize (IH (r + 1) (<[k:=set_ranking (Some r) m]> s)).
  destruct (rank_loop l (r + 1) _) as [l' s']. simpl in *. subst l'.
  unfold ranked. simpl. f_equal; [by rewrite Z.add_0_r|].
  apply imap_ext. intros i x _. simpl. do 3 f_equal. lia.
Qed.

Lemma rank_loop_lookup_notin l r s k :
  k ∉ l.*1 → (rank_loop l r s).2 !! k = s !! k.
Proof.
  revert r s. induction l as [|[k' m] l IH]; intros r s Hk; [done|].
  simpl. specialize (IH (r + 1) (<[k':=set_ranking (Some r) m]> s)).
  destruct (rank_loop l (r + 1) _) as [l' s']. simpl in *.
  apply not_elem_of_cons in Hk as [Hne Hk].
  by rewrite IH, lookup_insert_ne.
Qed.

Lemma rank_loop_lookup l r s i k m :
  NoDup l.*1 → l !! i = Some (k, m) →
  (rank_loop l r s).2 !! k = Some (set_ranking (Some (r + Z.of_nat i)) m).
Proof.
  revert r s i. induction l as [|[k' m'] l IH]; intros r s i Hnd Hi.
  { by rewrite lookup_nil in Hi. }
  apply NoDup_cons in Hnd as [Hk' Hnd].
  pose proof (rank_loop_lookup_notin l (r + 1)
                (<[k':=set_ranking (Some r) m']> s) k') as Hout.
  simpl. specialize (IH (r + 1) (<[k':=set_ranking (Some r) m']> s)).
  destruct (rank_loop l (r + 1) _) as [l' s']. simpl in *.
  destruct i as [|i]; simpl in Hi.
  - simplify_eq. rewrite Hout, lookup_insert_eq, Z.add_0_r; done.
  - rewrite (IH i Hnd Hi). do 3 f_equal. lia.
Qed.

Lemma rank_loop_dom l r s :
  (∀ x, x ∈ l → is_Some (s !! x.1)) → dom (rank_loop l r s).2 = dom s.
Proof.
  revert r s. induction l as [|[k m] l IH]; intros r s Hl; [done|].
  simpl. specialize (IH (r + 1) (<[k:=set_ranking (Some r) m]> s)).
  destruct (rank_loop l (r + 1) _) as [l' s']. simpl in *.
  rewrite IH.
  - rewrite dom_insert_L. destruct (Hl (k, m)) as [m' Hm']; [left|].
    apply elem_of_dom_2 in Hm'. simpl in Hm'.
    by apply subseteq_union_1_L, singleton_subseteq_l.
  - intros x Hx. destruct (Hl x) as [m' Hm']; [by right|].
    destruct (decide (k = x.1)) as [->|Hne].
    + rewrite lookup_insert_eq. eauto.
    + rewrite lookup_insert_ne; eauto.
Qed.

End ranking.

(** ** Reading the collection *)

Section home_facts.
Implicit Types (s : gmap Z Movie) (w : World) (req : Request).

Lemma home_unfold req w :
  home req w =
    (Returns (Some (render_template "index.html"
                      (args_movies (ranked 1 (order_by_rating_desc (db w)))))),
     set_db (rank_loop (order_by_rating_desc (db w)) 1 (db w)).2 w).
Proof.
  unfold home.
  pose proof (rank_loop_fst (order_by_rating_desc (db w)) 1 (db w)) as H.
  destruct (rank_loop _ 1 (db w)) as [l s]. simpl in H. by subst l.
Qed.

Lemma home_rank req w i k m :
  order_by_rating_desc (db w) !! i = Some (k, m) →
  db (home req w).2 !! k = Some (set_ranking (Some (Z.of_nat i + 1)) m).
Proof.
  intros Hi. rewrite home_unfold. simpl.
  rewrite (rank_loop_lookup _ 1 _ i k m);
    [by rewrite Z.add_comm|apply order_by_rating_desc_NoDup|done].
Qed.

Lemma home_dom req w : dom (db (home req w).2) = dom (db w).
Proof.
  rewrite home_unfold. simpl. apply rank_loop_dom.
  intros [k m] Hkm. apply order_by_rating_desc_elem in Hkm. eauto.
Qed.

(** In the page a row with the strictly higher rating comes first. *)
Lemma page_order w i j (x y : Z * Movie) :
  stored_ratings (db w) →
  order_by_rating_desc (db w) !! i = Some x →
  order_by_rating_desc (db w) !! j = Some y →
  Real.lt (rating y.2) (rating x.2) = true →
  (i < j)%nat.
Proof.
  intros Hst Hi Hj Hlt.
  destruct (lt_eq_lt_dec i j) as [[?| ->]|Hji]; [done| |].
  - simplify_eq. by rewrite (RealFacts.lt_asym _ _ Hlt) in Hlt.
  - pose proof (order_by_rating_desc_sorted _ j i y x Hst Hji Hj Hi) as Hn.
    unfold not_below in Hn. congruence.
Qed.

End home_facts.

(** C1.  Reading the collection ranks it by rating.  For every table whose
    ratings are NULL or numbers, the page [home] renders holds every row
    once, in descending order of rating with the unrated rows after all the
    rated ones, and the row at place [i] (counted from 0) is stored and shown
    with rank [i + 1]: the ranks are 1, 2, ..., up to the number of rows,
    without gaps or repeats, rows of equal rating included.  In
    particular, for any four rows rated 9.0, 7.5, 7.5 and not at all, the
    first gets rank 1, the two rated 7.5 get ranks 2 and 3 in one order or the
    other, and the unrated row gets rank 4. *)
Theorem home_ranks_by_rating_desc :
  (∀ req w,
     stored_ratings (db w) →
     let page := order_by_rating_desc (db w) in
     (∀ k m, (k, m) ∈ page ↔ db w !! k = Some m) ∧
     NoDup page.*1 ∧ length page = size (db w) ∧
     (∀ i j a b, (i < j)%nat → page !! i = Some a → page !! j = Some b →
        Real.lt (rating a.2) (rating b.2) = false ∧
        (rating a.2 = None → rating b.2 = None)) ∧
     (home req w).1 =
       Returns (Some (render_template "index.html" (args_movies (ranked 1 page)))) ∧
     (∀ i k m, page !! i = Some (k, m) →
        ranked 1 page !! i = Some (k, set_ranking (Some (Z.of_nat i + 1)) m) ∧
        db (home req w).2 !! k = Some (set_ranking (Some (Z.of_nat i + 1)) m)) ∧
     dom (db (home req w).2) = dom (db w))
  ∧
  (∀ req w a b c d ma mb mc md,
     NoDup [a; b; c; d] →
     db w = <[a:=ma]> (<[b:=mb]> (<[c:=mc]> {[d:=md]})) →
     rating ma = Some 9%float → rating mb = Some 7.5%float →
     rating mc = Some 7.5%float → rating md = None →
     rank_after_home req w a = Some 1 ∧
     (rank_after_home req w b = Some 2 ∧ rank_after_home req w c = Some 3 ∨
      rank_after_home req w b = Some 3 ∧ rank_after_home req w c = Some 2) ∧
     rank_after_home req w d = Some 4).
Proof.
  split.
  - intros req w Hst page.
    split; [intros k m; apply order_by_rating_desc_elem|].
    split; [apply order_by_rating_desc_NoDup|].
    split; [apply order_by_rating_desc_length|].
    split.
    { intros i j a b Hij Hi Hj.
      pose proof (order_by_rating_desc_sorted (db w) i j a b Hst Hij Hi Hj) as Hab.
      split; [exact Hab|]. intros Ha.
      unfold not_below in Hab. rewrite Ha in Hab.
      by destruct (rating b.2). }
    split; [by rewrite home_unfold|].
    split; [|apply home_dom].
    intros i k m Hi. split; [|by apply home_rank].
    unfold ranked. rewrite list_lookup_imap. fold page. rewrite Hi. simpl.
    by rewrite Z.add_comm.
  - intros req w a b c d ma mb mc md Hnd Hdb Ha Hb Hc Hd.
    apply NoDup_cons in Hnd as [Hab Hnd]. apply NoDup_cons in Hnd as [Hbc Hnd].
    apply NoDup_cons in Hnd as [Hcd _].
    rewrite !not_elem_of_cons in Hab. rewrite !not_elem_of_cons in Hbc.
    rewrite !not_elem_of_cons in Hcd.
    destruct Hab as (Hab & Hac & Had & _), Hbc as (Hbc & Hbd & _), Hcd as [Hcd _].
    assert (db w !! a = Some ma) as La by (by rewrite Hdb, lookup_insert_eq).
    assert (db w !! b = Some mb) as Lb.
    { rewrite Hdb, lookup_insert_ne by done. apply lookup_insert_eq. }
    assert (db w !! c = Some mc) as Lc.
    { rewrite Hdb, !lookup_insert_ne by done. apply lookup_insert_eq. }
    assert (db w !! d = Some md) as Ld.
    { rewrite Hdb, !lookup_insert_ne by done. apply lookup_singleton_eq. }
    assert (stored_ratings (db w)) as Hst.
    { intros k m. rewrite Hdb. intros Hm.
      repeat (apply lookup_insert_Some in Hm as [[_ <-]|[_ Hm]];
              [by (rewrite Ha || rewrite Hb || rewrite Hc)|]).
      apply lookup_singleton_Some in Hm as [_ <-]. by rewrite Hd. }
    apply order_by_rating_desc_elem, list_elem_of_lookup_1 in La as [ia Ia].
    apply order_by_rating_desc_elem, list_elem_of_lookup_1 in Lb as [ib Ib].
    apply order_by_rating_desc_elem, list_elem_of_lookup_1 in Lc as [ic Ic].
    apply order_by_rating_desc_elem, list_elem_of_lookup_1 in Ld as [id Id].
    assert (id < 4)%nat as Hid.
    { apply lookup_lt_Some in Id. rewrite order_by_rating_desc_length in Id.
      rewrite Hdb in Id. rewrite !map_size_insert_None in Id.
      - by rewrite map_size_singleton in Id.
      - by rewrite lookup_singleton_ne.
      - rewrite lookup_insert_ne by done. by rewrite lookup_singleton_ne.
      - rewrite !lookup_insert_ne by done. by rewrite lookup_singleton_ne. }
    assert (ia < ib)%nat as Hiab.
    { apply (page_order w ia ib _ _ Hst Ia Ib). simpl. by rewrite Ha, Hb. }
    assert (ia < ic)%nat as Hiac.
    { apply (page_order w ia ic _ _ Hst Ia Ic). simpl. by rewrite Ha, Hc. }
    assert (ib < id)%nat as Hibd.
    { apply (page_order w ib id _ _ Hst Ib Id). simpl. by rewrite Hb, Hd. }
    assert (ic < id)%nat as Hicd.
    { apply (page_order w ic id _ _ Hst Ic Id). simpl. by rewrite Hc, Hd. }
    assert (ib ≠ ic) as Hibc.
    { intros ->. rewrite Ib in Ic. by simplify_eq. }
    unfold rank_after_home.
    rewrite (home_rank req w ia a ma Ia), (home_rank req w ib b mb Ib),
      (home_rank req w ic c mc Ic), (home_rank req w id d md Id). simpl.
    assert (ia = 0 ∧ id = 3 ∧ (ib = 1 ∧ ic = 2 ∨ ib = 2 ∧ ic = 1))%nat
      as (-> & -> & [[-> ->]|[-> ->]]) by lia; simpl; auto.
Qed.

Lemma sample_stored_ratings : stored_ratings Sample.table.
Proof.
  intros k m Hm. unfold Sample.table in Hm.
  repeat (apply lookup_insert_Some in Hm as [[_ <-]|[_ Hm]]; [done|]).
  by apply lookup_singleton_Some in Hm as [_ <-].
Qed.

Lemma home_ranks_by_rating_desc_witness :
  dom (db (home (Sample.request GET None) Sample.world).2) = dom Sample.table ∧
  rank_after_home (Sample.request GET None) Sample.world 3 = Some 1 ∧
  (rank_after_home (Sample.request GET None) Sample.world 1 = Some 2 ∧
   rank_after_home (Sample.request GET None) Sample.world 4 = Some 3 ∨
   rank_after_home (Sample.request GET None) Sample.world 1 = Some 3 ∧
   rank_after_home (Sample.request GET None) Sample.world 4 = Some 2) ∧
  rank_after_home (Sample.request GET None) Sample.world 2 = Some 4.
Proof.
  split.
  - apply (proj1 home_ranks_by_rating_desc (Sample.request GET None)
             Sample.world sample_stored_ratings).
  - apply (proj2 home_ranks_by_rating_desc (Sample.request GET None)
             Sample.world 3 1 4 2
             (Sample.movie "Dune" (Some 9%float))
             (Sample.movie "Alien" (Some 7.5%float))
             (Sample.movie "Heat" (Some 7.5%float))
             (Sample.movie "Tenet" None));
      [exact (bool_decide_unpack (NoDup [3; 1; 4; 2]) I)|reflexivity..].
Defined.

Example home_sample :
  (home (Sample.request GET None) Sample.world).1
  = Returns (Some (render_template "index.html" (args_movies
      [(3, set_ranking (Some 1) (Sample.movie "Dune" (Some 9%float)));
       (1, set_ranking (Some 2) (Sample.movie "Alien" (Some 7.5%float)));
       (4, set_ranking (Some 3) (Sample.movie "Heat" (Some 7.5%float)));
       (2, set_ranking (Some 4) (Sample.movie "Tenet" None))]))).
Proof. vm_compute. reflexivity. Qed.

(** ** Reading twice *)

Section reread.
Implicit Types (s : gmap Z Movie) (w : World) (req : Request).

Lemma set_ranking_twice r r' m :
  set_ranking r (set_ranking r' m) = set_ranking r m.
Proof. done. Qed.

Lemma ranked_keys r l : (ranked r l).*1 = l.*1.
Proof.
  unfold ranked. rewrite fmap_imap.
  rewrite <-(imap_const fst l). by apply imap_ext.
Qed.

Lemma ranked_twice r l : ranked r (ranked r l) = ranked r l.
Proof.
  apply list_eq. intros i. unfold ranked.
  rewrite !list_lookup_imap. by destruct (l !! i).
Qed.

(** After the pass the query gives the same rows in the same order, each
    with the rank it has just been given. *)
Lemma order_by_rating_desc_after_home req w :
  order_by_rating_desc (db (home req w).2)
  = ranked 1 (order_by_rating_desc (db w)).
Proof.
  set (s := db w). set (s' := db (home req w).2).
  set (g := λ (k : Z) (m : Movie),
         match s' !! k with
         | Some m' => set_ranking (ranking m') m
         | None => m
         end).
  assert (∀ i k m, order_by_rating_desc s !! i = Some (k, m) →
            g k m = set_ranking (Some (1 + Z.of_nat i)) m) as Hg.
  { intros i k m Hi. unfold g, s'.
    rewrite (home_rank req w i k m Hi). simpl. by rewrite Z.add_comm. }
  assert (∀ k, s' !! k = g k <$> s !! k) as Hs'.
  { intros k. destruct (s !! k) as [m|] eqn:Hm; simpl.
    - apply order_by_rating_desc_elem, list_elem_of_lookup_1 in Hm as [i Hi].
      rewrite (Hg i k m Hi). unfold s'.
      rewrite (home_rank req w i k m Hi). by rewrite Z.add_comm.
    - apply not_elem_of_dom. unfold s'. rewrite home_dom.
      by apply not_elem_of_dom. }
  unfold order_by_rating_desc at 1.
  rewrite (table_rows_fmap s s' g Hs'), sort_fmap.
  - fold (order_by_rating_desc s). apply list_eq. intros i.
    unfold ranked. rewrite list_lookup_fmap, list_lookup_imap.
    destruct (order_by_rating_desc s !! i) as [[k m]|] eqn:Hi; [|done].
    simpl. by rewrite (Hg i k m Hi).
  - intros [k m]. unfold g. simpl. by destruct (s' !! k).
Qed.

Lemma rank_loop_ranked l r s :
  NoDup l.*1 →
  (∀ i k m, l !! i = Some (k, m) →
     s !! k = Some (set_ranking (Some (r + Z.of_nat i)) m)) →
  rank_loop (ranked r l) r s = (ranked r l, s).
Proof.
  intros Hnd Hs.
  rewrite (surjective_pairing (rank_loop (ranked r l) r s)).
  rewrite rank_loop_fst, ranked_twice. f_equal.
  apply map_eq. intros k.
  destruct (decide (k ∈ l.*1)) as [Hk|Hk].
  - apply list_elem_of_fmap in Hk as ([k' m] & -> & Hkm).
    apply list_elem_of_lookup_1 in Hkm as [i Hi]. simpl.
    rewrite (rank_loop_lookup _ r s i k' (set_ranking (Some (r + Z.of_nat i)) m)).
    + by rewrite (Hs i k' m Hi).
    + by rewrite ranked_keys.
    + unfold ranked. by rewrite list_lookup_imap, Hi.
  - apply rank_loop_lookup_notin. by rewrite ranked_keys.
Qed.

End reread.

(** C2.  The pass is idempotent.  Reading the collection again, with nothing
    inserted, rated or deleted in between, renders the same page and leaves
    the table, with every rank in it, as the first read left it. *)
Theorem home_idempotent (req req' : Request) (w : World) :
  home req' (home req w).2 = home req w.
Proof.
  rewrite (home_unfold req' (home req w).2).
  rewrite order_by_rating_desc_after_home.
  rewrite rank_loop_ranked.
  - rewrite ranked_twice, !(home_unfold req w). reflexivity.
  - apply order_by_rating_desc_NoDup.
  - intros i k m Hi. rewrite (home_rank req w i k m Hi). by rewrite Z.add_comm.
Qed.

(** ** Looking a row up *)

Section lookup_facts.
Context (rt : Runtime).
Implicit Types (w : World) (req : Request).

Lemma get_or_404_found req w k m :
  named_key rt req = Some k → db w !! k = Some m →
  get_or_404 rt (db w) (arg_id req) = inr (k, m).
Proof.
  unfold get_or_404, named_key. intros -> Hm. by rewrite Hm.
Qed.

Lemma get_or_404_absent req w :
  (∀ k, named_key rt req = Some k → db w !! k = None) →
  get_or_404 rt (db w) (arg_id req) = inl NotFound.
Proof.
  unfold get_or_404, named_key. intros Hk.
  destruct (arg_id req ≫= pk_of_text rt) as [k|]; [|done].
  by rewrite (Hk k).
Qed.

End lookup_facts.

(** C6.  A key that names no row.  When the [id] of the request matches no
    row, looking it up, rating it and deleting it all end in NotFound (the
    404 of [get_or_404]) and leave the world, the table in it, exactly as it
    was; this holds for every method and every form content. *)
Theorem not_found_no_effect (rt : Runtime) (req : Request) (w : World) :
  (∀ k, named_key rt req = Some k → db w !! k = None) →
  get_or_404 rt (db w) (arg_id req) = inl NotFound ∧
  rate_movie rt req w = (Raises NotFound, w) ∧
  delete_movie rt req w = (Raises NotFound, w).
Proof.
  intros Hk. pose proof (get_or_404_absent rt req w Hk) as H.
  unfold rate_movie, delete_movie. by rewrite H.
Qed.

Lemma not_found_no_effect_witness :
  rate_movie Sample.runtime (Sample.request POST (Some "7"%string)) Sample.world
    = (Raises NotFound, Sample.world) ∧
  delete_movie Sample.runtime (Sample.request POST (Some "7"%string)) Sample.world
    = (Raises NotFound, Sample.world).
Proof.
  apply (not_found_no_effect Sample.runtime
           (Sample.request POST (Some "7"%string)) Sample.world).
  intros k Hk. vm_compute in Hk. injection Hk as <-. reflexivity.
Defined.

(** C7.  Rating a row.  For a row that exists, a submitted form whose rating
    text [float] reads as [x] makes the view store [x] and the review text in
    that row and redirect home: title, year, description, image URL and
    ranking of the row keep their values, it stays under its key, every other
    row is untouched, and [x] is stored whatever its size or sign.  The
    column gives back the number it was given, and gives it back bit for
    bit unless it is a zero, whose sign the column drops; NaN, which is no
    number, is kept as NULL. *)
Theorem rate_movie_overwrites_rating_review
    (rt : Runtime) (req : Request) (w : World) (k : Z) (m : Movie)
    (text : string) (x : float) :
  named_key rt req = Some k → db w !! k = Some m →
  RateMovieForm.validate_on_submit req = true →
  rating_data req = Some text → py_float rt text = Some x →
  let w' := (rate_movie rt req w).2 in
  (rate_movie rt req w).1 = Returns (Some (redirect url_for_home)) ∧
  (∃ m', db w' !! k = Some m' ∧
     rating m' = Real.bind x ∧
     (is_nan x = false → ∃ y, rating m' = Some y ∧ (y =? x)%float = true) ∧
     (is_nan x = false → (x =? 0)%float = false → rating m' = Some x) ∧
     review m' = review_data req ∧
     title m' = title m ∧ year m' = year m ∧ description m' = description m ∧
     img_url m' = img_url m ∧ ranking m' = ranking m) ∧
  (∀ k', k' ≠ k → db w' !! k' = db w !! k') ∧
  dom (db w') = dom (db w) ∧ sent w' = sent w ∧ flashed w' = flashed w.
Proof.
  intros Hk Hm Hv Ht Hx w'. subst w'. unfold rate_movie.
  rewrite (get_or_404_found rt req w k m Hk Hm), Hv, Ht, Hx. simpl.
  split; [done|]. split.
  - eexists. split; [apply lookup_insert_eq|]. simpl.
    split; [done|]. split; [apply RealFacts.bind_same_number|].
    split; [apply RealFacts.bind_nonzero|]. repeat split; done.
  - split; [intros k' Hne; by apply lookup_insert_ne|].
    split; [|done]. rewrite dom_insert_L.
    apply subseteq_union_1_L, singleton_subseteq_l. by eapply elem_of_dom_2.
Qed.

Lemma rate_movie_overwrites_rating_review_witness :
  ∃ m', db (rate_movie Sample.runtime (Sample.request POST (Some "1"%string))
              Sample.world).2 !! 1 = Some m' ∧
        rating m' = Some 11%float ∧ review m' = Some "Great"%string ∧
        title m' = "Alien"%string.
Proof.
  destruct (rate_movie_overwrites_rating_review Sample.runtime
              (Sample.request POST (Some "1"%string)) Sample.world 1
              (Sample.movie "Alien" (Some 7.5%float)) "11.0" 11%float
              eq_refl eq_refl eq_refl eq_refl eq_refl)
    as (_ & (m' & Hm' & _ & _ & Hr & Hrev & Ht & _) & _).
  exists m'. split; [exact Hm'|]. split; [exact (Hr eq_refl eq_refl)|].
  split; [exact Hrev|exact Ht].
Defined.

(** Ratings outside 0 to 10 are stored like any other. *)
Example rate_movie_out_of_range :
  (rating <$> db (rate_movie Sample.runtime (Sample.rate_form "-1.0")
                    Sample.world).2 !! 1) = Some (Some (-1)%float) ∧
  (rating <$> db (rate_movie Sample.runtime (Sample.rate_form "11.0")
                    Sample.world).2 !! 1) = Some (Some 11%float).
Proof. split; reflexivity. Qed.

(** C9.  A rating text that is no number.  For a row that exists and a
    submitted form, a rating text that [float] rejects ends the view in
    ValueError with the world, the row in it, unchanged.  The empty text is
    such a text and the form lets it through: on a POST with a good token
    nothing else is checked. *)
Theorem rate_movie_bad_rating
    (rt : Runtime) (req : Request) (w : World) (k : Z) (m : Movie) :
  named_key rt req = Some k → db w !! k = Some m →
  (∀ text, RateMovieForm.validate_on_submit req = true →
     rating_data req = Some text → py_float rt text = None →
     rate_movie rt req w = (Raises ValueError, w)) ∧
  (method req = POST → csrf_ok req = true → rating_data req = Some ""%string →
     RateMovieForm.validate_on_submit req = true ∧
     rate_movie rt req w = (Raises ValueError, w)).
Proof.
  intros Hk Hm.
  assert (∀ text, RateMovieForm.validate_on_submit req = true →
     rating_data req = Some text → py_float rt text = None →
     rate_movie rt req w = (Raises ValueError, w)) as Hbad.
  { intros text Hv Ht Hx. unfold rate_movie.
    by rewrite (get_or_404_found rt req w k m Hk Hm), Hv, Ht, Hx. }
  split; [exact Hbad|]. intros Hp Hc Ht.
  assert (RateMovieForm.validate_on_submit req = true) as Hv.
  { unfold RateMovieForm.validate_on_submit, is_submitted. by rewrite Hp, Hc. }
  split; [exact Hv|]. apply (Hbad ""%string Hv Ht), py_float_empty.
Qed.

Lemma rate_movie_bad_rating_witness :
  rate_movie Sample.runtime Sample.empty_rating Sample.world
  = (Raises ValueError, Sample.world).
Proof.
  apply (proj2 (rate_movie_bad_rating Sample.runtime Sample.empty_rating
                  Sample.world 1 (Sample.movie "Alien" (Some 7.5%float))
                  eq_refl eq_refl)
           eq_refl eq_refl eq_refl).
Defined.

(** A missing rating field is a TypeError before anything is stored. *)
Lemma rate_movie_missing_rating (rt : Runtime) (req : Request) (w : World) k m :
  named_key rt req = Some k → db w !! k = Some m →
  RateMovieForm.validate_on_submit req = true → rating_data req = None →
  rate_movie rt req w = (Raises TypeError, w).
Proof.
  intros Hk Hm Hv Hr. unfold rate_movie.
  by rewrite (get_or_404_found rt req w k m Hk Hm), Hv, Hr.
Qed.

(** ** Deleting *)

(** The body of the view does delete when it sees a POST. *)
Lemma delete_movie_POST (rt : Runtime) (req : Request) (w : World) k m :
  named_key rt req = Some k → db w !! k = Some m → method req = POST →
  delete_movie rt req w
  = (Returns (Some (redirect url_for_home)), set_db (delete k (db w)) w).
Proof.
  intros Hk Hm Hp. unfold delete_movie.
  by rewrite (get_or_404_found rt req w k m Hk Hm), Hp.
Qed.

(** Any other method only asks for confirmation. *)
Lemma delete_movie_confirm (rt : Runtime) (req : Request) (w : World) k m :
  named_key rt req = Some k → db w !! k = Some m → method req ≠ POST →
  delete_movie rt req w
  = (Returns (Some (render_template "delete.html" (args_movie (k, m)))),
     flash "You are about to delete this movie." w).
Proof.
  intros Hk Hm Hp. unfold delete_movie.
  rewrite (get_or_404_found rt req w k m Hk Hm).
  by destruct (method req).
Qed.

(** The rule [/delete] is registered without a method list, so a POST never
    reaches the view, and the view deletes on nothing but a POST: whatever
    the request, the table after it is the table before it. *)
Lemma delete_route_never_deletes (rt : Runtime) (req : Request) (w : World) :
  db (app rt "/delete" req w).2 = db w.
Proof.
  unfold app. simpl. unfold route.
  destruct (method req) eqn:E; simpl; try reflexivity;
    unfold delete_movie; rewrite E;
    destruct (get_or_404 rt (db w) (arg_id req)) as [e|[k m]]; reflexivity.
Qed.

(** C3, as the code has it.  For a row that exists, the delete view removes
    it when the request is the confirmation, a POST: it redirects home, no
    row is left under that key, the other rows stay as they are and nothing
    is flashed or sent.  On any other method the view removes nothing: it
    flashes its warning, once, and shows the confirmation page for the row,
    the table and the calls sent being what they were. *)
Theorem delete_movie_on_confirmation
    (rt : Runtime) (req : Request) (w : World) (k : Z) (m : Movie) :
  named_key rt req = Some k → db w !! k = Some m →
  (method req = POST →
     (delete_movie rt req w).1 = Returns (Some (redirect url_for_home)) ∧
     db (delete_movie rt req w).2 !! k = None ∧
     (∀ k', k' ≠ k → db (delete_movie rt req w).2 !! k' = db w !! k') ∧
     sent (delete_movie rt req w).2 = sent w ∧
     flashed (delete_movie rt req w).2 = flashed w) ∧
  (method req ≠ POST →
     (delete_movie rt req w).1
       = Returns (Some (render_template "delete.html" (args_movie (k, m)))) ∧
     db (delete_movie rt req w).2 = db w ∧
     sent (delete_movie rt req w).2 = sent w ∧
     flashed (delete_movie rt req w).2
       = flashed w ++ ["You are about to delete this movie."%string]).
Proof.
  intros Hk Hm. split; intros Hp.
  - rewrite (delete_movie_POST rt req w k m Hk Hm Hp). simpl.
    split; [done|]. split; [apply lookup_delete_eq|].
    split; [|done]. intros k' Hne. by apply lookup_delete_ne.
  - by rewrite (delete_movie_confirm rt req w k m Hk Hm Hp).
Qed.

Lemma delete_movie_on_confirmation_witness :
  db (delete_movie Sample.runtime (Sample.request POST (Some "3"%string))
        Sample.world).2 !! 3 = None.
Proof.
  apply (proj1 (delete_movie_on_confirmation Sample.runtime
                  (Sample.request POST (Some "3"%string)) Sample.world 3
                  (Sample.movie "Dune" (Some 9%float)) eq_refl eq_refl)
           eq_refl).
Defined.

(** C3 as stated fails: a delete request that is no POST leaves the row
    where it was. *)
Lemma delete_movie_GET_keeps_row :
  db (delete_movie Sample.runtime (Sample.request GET (Some "3"%string))
        Sample.world).2 !! 3 = Some (Sample.movie "Dune" (Some 9%float)).
Proof. reflexivity. Qed.

Example delete_route_POST :
  app Sample.runtime "/delete" (Sample.request POST (Some "3"%string)) Sample.world
  = (Raises MethodNotAllowed, Sample.world).
Proof. reflexivity. Qed.

Example delete_route_GET :
  app Sample.runtime "/delete" (Sample.request GET (Some "3"%string)) Sample.world
  = (Returns (Some (render_template "delete.html"
                      (args_movie (3, Sample.movie "Dune" (Some 9%float))))),
     flash "You are about to delete this movie." Sample.world).
Proof. vm_compute. reflexivity. Qed.

(** ** Creating a row from the provider *)

Section find_facts.
Context (rt : Runtime).
Implicit Types (w : World) (req : Request) (s : gmap Z Movie).

Lemma title_taken_spec t s :
  title_taken t s = true ↔ ∃ k m, s !! k = Some m ∧ title m = t.
Proof.
  unfold title_taken. rewrite bool_decide_eq_true, Exists_exists. split.
  - intros ([k m] & Hkm & Ht). apply elem_of_map_to_list in Hkm. eauto.
  - intros (k & m & Hm & Ht). exists (k, m).
    split; [by apply elem_of_map_to_list|done].
Qed.

Lemma insert_movie_duplicate (m : Movie) s k m0 :
  s !! k = Some m0 → title m0 = title m →
  insert_movie m s = inl IntegrityError.
Proof.
  intros Hm0 Ht. unfold insert_movie.
  assert (title_taken (title m) s = true) as ->; [|done].
  apply title_taken_spec. eauto.
Qed.

Lemma split_head (s : string) :
  ∃ y, head (Py.split "-" s) = Some y ∧ before_first_dash y s.
Proof.
  unfold before_first_dash. induction s as [|c s (y & Hy & Hno & Hs)]; simpl.
  - exists ""%string. auto.
  - destruct (Ascii.eqb c "-") eqn:E.
    + apply Ascii.eqb_eq in E as ->. exists ""%string. simpl. eauto.
    + destruct (Py.split "-" s) as [|w ws]; [done|].
      simpl in Hy. injection Hy as ->.
      exists (String c y). simpl. rewrite E, Hno. simpl.
      split; [done|]. split; [done|].
      destruct Hs as [->|[rest ->]]; eauto.
Qed.

End find_facts.

Section insert_facts.
Implicit Types (s : gmap Z Movie) (w : World) (req : Request).

Lemma foldr_max_ge (k : Z) (ks : list Z) :
  k ≤ foldr Z.max k ks ∧ ∀ k', k' ∈ ks → k' ≤ foldr Z.max k ks.
Proof.
  induction ks as [|k0 ks [IH1 IH2]]; simpl.
  - split; [lia|]. intros k' Hk'. by apply elem_of_nil in Hk'.
  - split; [lia|]. intros k' Hk'.
    apply elem_of_cons in Hk' as [->|Hk']; [lia|].
    specialize (IH2 k' Hk'). lia.
Qed.

Lemma next_id_fresh s : s !! next_id s = None.
Proof.
  apply not_elem_of_dom. rewrite <-elem_of_elements. unfold next_id.
  destruct (elements (dom s)) as [|k ks]; [apply not_elem_of_nil|].
  destruct (foldr_max_ge k ks) as [H1 H2].
  intros Hin. apply elem_of_cons in Hin as [Hin|Hin]; [lia|].
  specialize (H2 _ Hin). lia.
Qed.

Lemma insert_movie_new (m : Movie) s :
  (∀ k m0, s !! k = Some m0 → title m0 ≠ title m) →
  insert_movie m s = inr (next_id s, <[next_id s := m]> s) ∧
  size (<[next_id s := m]> s) = S (size s).
Proof.
  intros Hfree. unfold insert_movie.
  destruct (title_taken (title m) s) eqn:E.
  - apply title_taken_spec in E as (k & m0 & Hm0 & Ht). by destruct (Hfree k m0).
  - split; [done|]. apply map_size_insert_None, next_id_fresh.
Qed.

End insert_facts.

Section create_facts.
Context (rt : Runtime).
Implicit Types (w : World) (req : Request) (data : gmap string (option string)).

Lemma new_movie_present (image_url : string) data t rd pp ov :
  data !! "title"%string = Some t →
  data !! "release_date"%string = Some (Some rd) →
  data !! "poster_path"%string = Some pp →
  data !! "overview"%string = Some ov →
  ∃ y, before_first_dash y rd ∧
       new_movie image_url data = inr (t, y, (image_url ++ format pp)%string, ov).
Proof.
  intros Ht Hrd Hpp Hov. destruct (split_head rd) as (y & Hy & Hb).
  exists y. split; [done|]. unfold new_movie, getitem.
  by rewrite Ht, Hrd, Hy, Hpp, Hov.
Qed.

Lemma find_movie_with_unfold (image_url : string) req w status data :
  Py.truthy (arg_id req) = true →
  info_api rt (info_call rt (arg_id req)) = Reply status (Some data) →
  find_movie_with rt image_url req w =
    match new_movie image_url data with
    | inl e => (Raises e, send (info_call rt (arg_id req)) w)
    | inr (Some t, y, img, Some d) =>
        match insert_movie
                {| title := t; year := y; description := d; rating := None;
                   ranking := None; review := None; img_url := img |} (db w) with
        | inl e => (Raises e, send (info_call rt (arg_id req)) w)
        | inr (k, s) =>
            (Returns (Some (redirect (url_for_rate_movie k))),
             set_db s (send (info_call rt (arg_id req)) w))
        end
    | inr _ => (Raises IntegrityError, send (info_call rt (arg_id req)) w)
    end.
Proof. intros Hid Hr. unfold find_movie_with. by rewrite Hid, Hr. Qed.

End create_facts.

(** C4.  A title that is already there.  When some row has title [t], a
    new row with the same title (the same text, letter for letter) is
    refused by the insert with IntegrityError, the UNIQUE violation; the
    view that receives such a title from the provider ends in that error and
    the table, so the number of rows, is what it was. *)
Theorem duplicate_title_rejected
    (rt : Runtime) (req : Request) (w : World) (k : Z) (m0 : Movie)
    (status : Z) (data : gmap string (option string)) (rd : string)
    (pp ov : option string) :
  db w !! k = Some m0 →
  Py.truthy (arg_id req) = true →
  info_api rt (info_call rt (arg_id req)) = Reply status (Some data) →
  data !! "title"%string = Some (Some (title m0)) →
  data !! "release_date"%string = Some (Some rd) →
  data !! "poster_path"%string = Some pp →
  data !! "overview"%string = Some ov →
  (∀ m, title m = title m0 → insert_movie m (db w) = inl IntegrityError) ∧
  (find_movie rt req w).1 = Raises IntegrityError ∧
  db (find_movie rt req w).2 = db w ∧
  size (db (find_movie rt req w).2) = size (db w).
Proof.
  intros Hm0 Hid Hr Ht Hrd Hpp Hov.
  assert (∀ m, title m = title m0 → insert_movie m (db w) = inl IntegrityError)
    as Hins by (intros m Hm; by apply (insert_movie_duplicate m (db w) k m0)).
  split; [exact Hins|].
  destruct (new_movie_present MOVIE_DB_IMAGE_URL data _ rd pp ov Ht Hrd Hpp Hov)
    as (y & _ & Hnew).
  unfold find_movie.
  rewrite (find_movie_with_unfold rt _ req w status data Hid Hr), Hnew.
  destruct ov as [d|]; [|done].
  by rewrite Hins.
Qed.

Lemma duplicate_title_rejected_witness :
  (find_movie Sample.runtime (Sample.request GET (Some "438631"%string))
     Sample.world).1 = Raises IntegrityError ∧
  size (db (find_movie Sample.runtime (Sample.request GET (Some "438631"%string))
              Sample.world).2) = size Sample.table.
Proof.
  destruct (duplicate_title_rejected Sample.runtime
              (Sample.request GET (Some "438631"%string)) Sample.world 3
              (Sample.movie "Dune" (Some 9%float)) 200 Sample.dune_detail
              "2021-10-22" (Some "/abc.jpg"%string)
              (Some "A duke's son leads desert warriors."%string)
              eq_refl eq_refl eq_refl eq_refl eq_refl eq_refl eq_refl)
    as (_ & Hout & _ & Hsize).
  exact (conj Hout Hsize).
Defined.

(** C5, as the code has it.  From a detail object whose four members are
    there, the release date being text, the view builds a row whose year is
    the text in front of the first dash of the release date and whose image
    URL is the image base followed, with nothing put in or taken out, by the
    poster path; title and overview are passed on as they are.  For the
    release date 2021-10-22, the poster path /abc.jpg and the image base
    https://img/ that is the year 2021 and the URL https://img//abc.jpg,
    with both slashes. *)
Theorem new_movie_fields :
  (∀ (image_url : string) (data : gmap string (option string))
     (t : option string) (rd pp : string) (ov : option string),
     data !! "title"%string = Some t →
     data !! "release_date"%string = Some (Some rd) →
     data !! "poster_path"%string = Some (Some pp) →
     data !! "overview"%string = Some ov →
     ∃ y, before_first_dash y rd ∧
          new_movie image_url data = inr (t, y, (image_url ++ pp)%string, ov))
  ∧
  new_movie "https://img/" Sample.dune_detail
  = inr (Some "Dune"%string, "2021"%string, "https://img//abc.jpg"%string,
         Some "A duke's son leads desert warriors."%string).
Proof.
  split; [|reflexivity].
  intros image_url data t rd pp ov Ht Hrd Hpp Hov.
  apply (new_movie_present image_url data t rd (Some pp) ov Ht Hrd Hpp Hov).
Qed.

Lemma new_movie_fields_witness :
  ∃ y, before_first_dash y "2021-10-22" ∧
       new_movie MOVIE_DB_IMAGE_URL Sample.dune_detail
       = inr (Some "Dune"%string, y,
              "https://image.tmdb.org/t/p/w500/abc.jpg"%string,
              Some "A duke's son leads desert warriors."%string).
Proof.
  exact (proj1 new_movie_fields MOVIE_DB_IMAGE_URL Sample.dune_detail
           (Some "Dune"%string) "2021-10-22" "/abc.jpg"
           (Some "A duke's son leads desert warriors."%string)
           eq_refl eq_refl eq_refl eq_refl).
Defined.

(** C5 as stated fails: with the image base https://img/ and the poster
    path /abc.jpg the row built does not have the image URL
    https://img/abc.jpg. *)
Lemma new_movie_img_url_not_joined :
  ¬ ∃ t y ov, new_movie "https://img/" Sample.dune_detail
              = inr (t, y, "https://img/abc.jpg"%string, ov).
Proof. intros (t & y & ov & H). vm_compute in H. discriminate H. Qed.

(** A detail object with text in all four members and a title no row has
    yet: the view stores a new, unrated row under a fresh key and redirects
    to its rate form. *)
Lemma find_movie_creates (rt : Runtime) (req : Request) (w : World)
    (status : Z) (data : gmap string (option string)) (t rd pp ov : string) :
  Py.truthy (arg_id req) = true →
  info_api rt (info_call rt (arg_id req)) = Reply status (Some data) →
  data !! "title"%string = Some (Some t) →
  data !! "release_date"%string = Some (Some rd) →
  data !! "poster_path"%string = Some (Some pp) →
  data !! "overview"%string = Some (Some ov) →
  (∀ k m0, db w !! k = Some m0 → title m0 ≠ t) →
  ∃ y, before_first_dash y rd ∧
       (find_movie rt req w).1
         = Returns (Some (redirect (url_for_rate_movie (next_id (db w))))) ∧
       db w !! next_id (db w) = None ∧
       db (find_movie rt req w).2
         = <[next_id (db w) :=
               {| title := t; year := y; description := ov; rating := None;
                  ranking := None; review := None;
                  img_url := (MOVIE_DB_IMAGE_URL ++ pp)%string |}]> (db w).
Proof.
  intros Hid Hr Ht Hrd Hpp Hov Hfree.
  destruct (new_movie_present MOVIE_DB_IMAGE_URL data _ rd _ _ Ht Hrd Hpp Hov)
    as (y & Hy & Hnew).
  exists y. split; [done|]. unfold find_movie.
  rewrite (find_movie_with_unfold rt _ req w status data Hid Hr), Hnew.
  simpl format.
  destruct (insert_movie_new
              {| title := t; year := y; description := ov; rating := None;
                 ranking := None; review := None;
                 img_url := (MOVIE_DB_IMAGE_URL ++ pp)%string |} (db w) Hfree)
    as [-> _].
  split; [done|]. split; [apply next_id_fresh|done].
Qed.

(** C10.  No provider id.  When the request has no [id], or an empty one,
    the view calls nothing and stores nothing: it returns nothing, raises
    nothing, and the world after it, its rows and the list of calls sent, is
    the world before it. *)
Theorem find_movie_without_id (rt : Runtime) (req : Request) (w : World) :
  arg_id req = None ∨ arg_id req = Some ""%string →
  find_movie rt req w = (Returns None, w).
Proof.
  intros [H|H]; unfold find_movie, find_movie_with; by rewrite H.
Qed.

Lemma find_movie_without_id_witness :
  find_movie Sample.runtime (Sample.request GET (Some ""%string)) Sample.world
  = (Returns None, Sample.world).
Proof.
  apply (find_movie_without_id Sample.runtime
           (Sample.request GET (Some ""%string)) Sample.world).
  right. reflexivity.
Defined.

(** What Flask then makes of it: a view that returned nothing is an error
    of the framework, the table still untouched. *)
Example find_route_without_id :
  app Sample.runtime "/find" (Sample.request GET None) Sample.world
  = (Raises TypeError, Sample.world).
Proof. reflexivity. Qed.

(** ** Searching the provider *)

(** C8, as the code has it.  A validated search sends one call to the
    provider and touches no row.  When the call itself fails the view ends
    in that failure.  The status of a reply is never looked at: whatever it
    is, a body that is not JSON ends the view in JSONDecodeError, a body
    without [results] in KeyError, and a body with [results] is a success
    that hands the provider's list to the template as it came. *)
Theorem add_movie_search (rt : Runtime) (req : Request) (w : World) :
  FindMovieForm.validate_on_submit req = true →
  let call := search_call rt (title_data req) in
  let r := add_movie rt req w in
  sent r.2 = sent w ++ [call] ∧ db r.2 = db w ∧
  (search_api rt call = Unreachable → r.1 = Raises RequestException) ∧
  (∀ status, search_api rt call = Reply status None →
     r.1 = Raises JSONDecodeError) ∧
  (∀ status body, search_api rt call = Reply status (Some body) →
     body !! "results"%string = None → r.1 = Raises (KeyError "results")) ∧
  (∀ status body data, search_api rt call = Reply status (Some body) →
     body !! "results"%string = Some data →
     r.1 = Returns (Some (render_template "select.html" (args_options data)))).
Proof.
  intros Hv call r. subst r. unfold add_movie. rewrite Hv. fold call.
  destruct (search_api rt call) as [|status [body|]|status] eqn:E; simpl.
  - repeat split; done.
  - destruct (body !! "results"%string) as [data|] eqn:Hb; simpl;
      repeat split; try done.
    + intros st b Hr Hn. injection Hr as _ <-. congruence.
    + intros st b d Hr Hd. injection Hr as _ <-. congruence.
    + intros st b d Hr Hd. injection Hr as _ <-. congruence.
  - repeat split; done.
  - repeat split; done.
Qed.

Lemma add_movie_search_witness :
  (add_movie Sample.runtime (Sample.request POST None) Sample.world).1
  = Returns (Some (render_template "select.html"
                     (args_options (JArr [Sample.dune_hit])))).
Proof.
  destruct (add_movie_search Sample.runtime (Sample.request POST None)
              Sample.world eq_refl) as (_ & _ & _ & _ & _ & Hok).
  exact (Hok 200 _ _ eq_refl eq_refl).
Defined.

(** C8 as stated fails: a reply with status 500 whose body has a result
    list is no failure of the search. *)
Lemma add_movie_ignores_status :
  search_api Sample.runtime_500
    (search_call Sample.runtime_500 (Some "Dune"%string))
  = Reply 500 (Some {["results"%string := JArr []]}) ∧
  (add_movie Sample.runtime_500 (Sample.request POST None) Sample.world).1
  = Returns (Some (render_template "select.html" (args_options (JArr [])))).
Proof. split; reflexivity. Qed.

(** ** Ratings stay storable *)

Lemma rank_loop_stored (l : list (Z * Movie)) (r : Z) (s : gmap Z Movie) :
  stored_ratings s →
  (∀ x, x ∈ l → Real.storable (rating x.2)) →
  stored_ratings (rank_loop l r s).2.
Proof.
  revert r s. induction l as [|[k m] l IH]; intros r s Hs Hl; [done|].
  simpl. specialize (IH (r + 1) (<[k:=set_ranking (Some r) m]> s)).
  destruct (rank_loop l (r + 1) _) as [l' s']. simpl in *. apply IH.
  - intros k' m' Hm'. apply lookup_insert_Some in Hm' as [[_ <-]|[_ Hm']].
    + apply (Hl (k, m)). left.
    + by apply (Hs k' m').
  - intros x Hx. apply Hl. by right.
Qed.

(** Whatever the request, a table whose ratings are NULL or numbers stays
    one. *)
Lemma app_keeps_stored_ratings (rt : Runtime) (path : string)
    (req : Request) (w : World) :
  stored_ratings (db w) → stored_ratings (db (app rt path req w).2).
Proof.
  intros Hs. unfold app.
  assert (∀ view, (∀ req w, stored_ratings (db w) →
                     stored_ratings (db (view req w).2)) →
          ∀ ms, stored_ratings (db (route ms view req w).2)) as Hroute.
  { intros view Hview ms. unfold route, make_response.
    specialize (Hview req w Hs).
    destruct (method req); simpl; try done;
      destruct (_ || _); simpl; try done;
      by destruct (view req w) as [[[r|]|e] w']. }
  repeat (destruct (String.eqb path _); [apply Hroute; clear; intros req w Hs|]);
    [| | | | |done].
  - rewrite home_unfold. simpl. apply rank_loop_stored; [done|].
    intros [k m] Hx. apply order_by_rating_desc_elem in Hx. by apply (Hs k m).
  - unfold add_movie. destruct (FindMovieForm.validate_on_submit req); [|done].
    destruct (search_api rt _) as [|st [body|]|st]; try done.
    by destruct (body !! "results"%string).
  - unfold rate_movie.
    destruct (get_or_404 rt (db w) (arg_id req)) as [e|[k m]]; [done|].
    destruct (RateMovieForm.validate_on_submit req); [|done].
    destruct (rating_data req) as [text|]; [|done].
    destruct (py_float rt text) as [x|]; [|done]. simpl.
    intros k' m' Hm'. apply lookup_insert_Some in Hm' as [[_ <-]|[_ Hm']].
    + apply RealFacts.bind_storable.
    + by apply (Hs k' m').
  - unfold delete_movie.
    destruct (get_or_404 rt (db w) (arg_id req)) as [e|[k m]]; [done|].
    destruct (method req); simpl; try done.
    intros k' m' Hm'. apply lookup_delete_Some in Hm' as [_ Hm'].
    by apply (Hs k' m').
  - unfold find_movie, find_movie_with.
    destruct (Py.truthy (arg_id req)); [|done].
    destruct (info_api rt _) as [|st [data|]|st]; try done.
    destruct (new_movie _ data) as [e|[[[[t|] y] img] [d|]]]; try done.
    unfold insert_movie. destruct (title_taken _ _); [done|]. simpl.
    intros k' m' Hm'. apply lookup_insert_Some in Hm' as [[_ <-]|[_ Hm']].
    + done.
    + by apply (Hs k' m').
Qed.

(** ** From search to a rated row *)

Example search_then_create_then_rate :
  let w1 := (app Sample.runtime "/add" (Sample.request POST None)
               Sample.empty_world).2 in
  let r2 := app Sample.runtime "/find"
              (Sample.request GET (Some "438631"%string)) w1 in
  let r3 := app Sample.runtime "/edit" Sample.rate_1 r2.2 in
  r2.1 = Returns (Some (redirect (url_for_rate_movie 1))) ∧
  db r2.2 !! 1
    = Some {| title := "Dune"; year := "2021";
              description := "A duke's son leads desert warriors.";
              rating := None; ranking := None; review := None;
              img_url := "https://image.tmdb.org/t/p/w500/abc.jpg" |} ∧
  r3.1 = Returns (Some (redirect url_for_home)) ∧
  (rating <$> db r3.2 !! 1) = Some (Some 8.5%float) ∧
  (review <$> db r3.2 !! 1) = Some (Some "Great"%string) ∧
  length (sent r3.2) = 2%nat.
Proof. vm_compute. repeat split; reflexivity. Qed.

(** * Further properties of the views *)

(** ** Through the URL map *)

Lemma make_response_snd (r : Outcome * World) : (make_response r).2 = r.2.
Proof. by destruct r as [[[r|]|e] w]. Qed.

Lemma route_cases (ms : list Method) (view : Request → World → Outcome * World)
    (req : Request) (w : World) :
  route ms view req w = (Returns (Some automatic_options), w) ∨
  route ms view req w = (Raises MethodNotAllowed, w) ∨
  route ms view req w = make_response (view req w).
Proof.
  unfold route. destruct (method req); auto; destruct (_ || _); auto.
Qed.

Lemma route_GET_cases (view : Request → World → Outcome * World)
    (req : Request) (w : World) :
  route [GET] view req w = (Returns (Some automatic_options), w) ∨
  route [GET] view req w = (Raises MethodNotAllowed, w) ∨
  (method req ≠ POST ∧ route [GET] view req w = make_response (view req w)).
Proof.
  unfold route. destruct (method req) eqn:E; simpl; auto.
Qed.

(** A relation between the world before and after that holds for doing
    nothing and for every view (for [delete_movie] on the methods its rule
    lets through) holds for every request. *)
Lemma app_world_ind (rt : Runtime) (P : Request → World → World → Prop) :
  (∀ req w, P req w w) →
  (∀ req w, P req w (home req w).2) →
  (∀ req w, P req w (add_movie rt req w).2) →
  (∀ req w, P req w (rate_movie rt req w).2) →
  (∀ req w, method req ≠ POST → P req w (delete_movie rt req w).2) →
  (∀ req w, P req w (find_movie rt req w).2) →
  ∀ path req w, P req w (app rt path req w).2.
Proof.
  intros Hid Hhome Hadd Hrate Hdel Hfind path req w. unfold app.
  destruct (String.eqb path "/").
  { destruct (route_cases [GET] home req w) as [-> | [-> | ->]];
      rewrite ?make_response_snd; auto. }
  destruct (String.eqb path "/add").
  { destruct (route_cases [GET; POST] (add_movie rt) req w) as [-> | [-> | ->]];
      rewrite ?make_response_snd; auto. }
  destruct (String.eqb path "/edit").
  { destruct (route_cases [GET; POST] (rate_movie rt) req w) as [-> | [-> | ->]];
      rewrite ?make_response_snd; auto. }
  destruct (String.eqb path "/delete").
  { destruct (route_GET_cases (delete_movie rt) req w) as [-> | [-> | [Hm ->]]];
      rewrite ?make_response_snd; auto. }
  destruct (String.eqb path "/find").
  { destruct (route_cases [GET] (find_movie rt) req w) as [-> | [-> | ->]];
      rewrite ?make_response_snd; auto. }
  apply Hid.
Qed.

(** ** What each view does to the table *)

Section view_effects.
Context (rt : Runtime).
Implicit Types (w : World) (req : Request) (s : gmap Z Movie).

Lemma get_or_404_inr s a k m :
  get_or_404 rt s a = inr (k, m) → a ≫= pk_of_text rt = Some k ∧ s !! k = Some m.
Proof.
  unfold get_or_404. destruct (a ≫= pk_of_text rt) as [k'|]; [|done].
  destruct (s !! k') as [m'|] eqn:E; [|done]. intros H. by simplify_eq.
Qed.

Lemma home_db req w k :
  ∃ r, db (home req w).2 !! k = set_ranking (Some r) <$> db w !! k ∧
       (is_Some (db w !! k) → 1 ≤ r ≤ Z.of_nat (size (db w))).
Proof.
  destruct (db w !! k) as [m|] eqn:Hm.
  - apply order_by_rating_desc_elem, list_elem_of_lookup_1 in Hm as [i Hi].
    exists (Z.of_nat i + 1). split; [by apply home_rank|]. intros _.
    apply lookup_lt_Some in Hi. rewrite order_by_rating_desc_length in Hi. lia.
  - exists 1. split; [|by intros []].
    apply not_elem_of_dom. rewrite home_dom. by apply not_elem_of_dom.
Qed.

(** The world after [add_movie]: the table is the one before. *)
Lemma add_movie_db req w : db (add_movie rt req w).2 = db w.
Proof.
  unfold add_movie. destruct (FindMovieForm.validate_on_submit req); [|done].
  destruct (search_api rt _) as [|st [body|]|st]; try done.
  by destruct (body !! "results"%string).
Qed.

(** The table after [rate_movie]: as before, or with one row rewritten. *)
Lemma rate_movie_db req w :
  db (rate_movie rt req w).2 = db w ∨
  ∃ k m x, db w !! k = Some m ∧
           db (rate_movie rt req w).2
           = <[k := set_rating_review (Real.bind x) (review_data req) m]> (db w).
Proof.
  unfold rate_movie.
  destruct (get_or_404 rt (db w) (arg_id req)) as [e|[k m]] eqn:E; [by left|].
  apply get_or_404_inr in E as [_ Hm].
  destruct (RateMovieForm.validate_on_submit req); [|by left].
  destruct (rating_data req) as [text|]; [|by left].
  destruct (py_float rt text) as [x|]; [|by left].
  right. by exists k, m, x.
Qed.

(** The table after [delete_movie] on a request that is no POST. *)
Lemma delete_movie_db req w :
  method req ≠ POST → db (delete_movie rt req w).2 = db w.
Proof.
  intros Hm. unfold delete_movie.
  destruct (get_or_404 rt (db w) (arg_id req)) as [e|[k m]]; [done|].
  by destruct (method req).
Qed.

(** The table after [find_movie]: as before, or with one row more, unrated,
    under the next key. *)
Lemma find_movie_db req w :
  db (find_movie rt req w).2 = db w ∨
  ∃ m, rating m = None ∧ ranking m = None ∧ review m = None ∧
       (∀ k m0, db w !! k = Some m0 → title m0 ≠ title m) ∧
       (find_movie rt req w).1
         = Returns (Some (redirect (url_for_rate_movie (next_id (db w))))) ∧
       db (find_movie rt req w).2 = <[next_id (db w) := m]> (db w).
Proof.
  unfold find_movie, find_movie_with.
  destruct (Py.truthy (arg_id req)); [|by left].
  destruct (info_api rt _) as [|st [data|]|st]; try by left.
  destruct (new_movie _ data) as [e|[[[[t|] y] img] [d|]]]; try by left.
  unfold insert_movie. destruct (title_taken _ _) eqn:E; [by left|].
  right. eexists. repeat split; try done. simpl.
  intros k m0 Hm0 Ht. apply not_true_iff_false in E. apply E.
  apply title_taken_spec. eauto.
Qed.

End view_effects.

(** ** What no request does *)

(** X1.  Rows are never removed or rewritten.  Whatever the rule, the
    method and the form, a row that is in the table before a request is
    still there after it, under the same key and with the same title, year,
    description and image URL: only rating, review and ranking ever
    change. *)
Theorem app_keeps_films (rt : Runtime) (path : string) (req : Request)
    (w : World) (k : Z) (m : Movie) :
  db w !! k = Some m →
  ∃ m', db (app rt path req w).2 !! k = Some m' ∧ same_film m m'.
Proof.
  revert k m.
  apply (app_world_ind rt (λ _ w w', ∀ k m, db w !! k = Some m →
           ∃ m', db w' !! k = Some m' ∧ same_film m m')); clear.
  - intros _ w k m Hm. by exists m.
  - intros req w k m Hm. destruct (home_db req w k) as (r & Hr & _).
    rewrite Hm in Hr. by eexists.
  - intros req w k m Hm. rewrite add_movie_db. by exists m.
  - intros req w k m Hm.
    destruct (rate_movie_db rt req w) as [->|(k0 & m0 & x & Hm0 & ->)];
      [by exists m|].
    destruct (decide (k0 = k)) as [->|Hne].
    + rewrite lookup_insert_eq. eexists. split; [done|]. by simplify_eq.
    + rewrite lookup_insert_ne by done. by exists m.
  - intros req w Hp k m Hm. rewrite delete_movie_db by done. by exists m.
  - intros req w k m Hm.
    destruct (find_movie_db rt req w) as [->|(m1 & _ & _ & _ & _ & _ & ->)];
      [by exists m|].
    rewrite lookup_insert_ne; [by exists m|].
    intros <-. by rewrite next_id_fresh in Hm.
Qed.

Lemma app_keeps_films_witness :
  ∃ m', db (app Sample.runtime "/edit" (Sample.rate_form "11.0")
              Sample.world).2 !! 1 = Some m' ∧
        same_film (Sample.movie "Alien" (Some 7.5%float)) m'.
Proof.
  exact (app_keeps_films Sample.runtime "/edit" (Sample.rate_form "11.0")
           Sample.world 1 (Sample.movie "Alien" (Some 7.5%float)) eq_refl).
Defined.

Lemma unique_titles_from (s s' : gmap Z Movie) :
  (∀ k m', s' !! k = Some m' → ∃ m, s !! k = Some m ∧ title m' = title m) →
  unique_titles s → unique_titles s'.
Proof.
  intros Hfrom Hs k1 k2 m1 m2 H1 H2 Ht.
  destruct (Hfrom k1 m1 H1) as (n1 & Hn1 & Ht1).
  destruct (Hfrom k2 m2 H2) as (n2 & Hn2 & Ht2).
  apply (Hs k1 k2 n1 n2 Hn1 Hn2). congruence.
Qed.

(** X2.  Titles stay unique.  If no two rows of the table share a title
    before a request, none do after it, whatever the request: the only view
    that adds a row refuses a title that is taken, and no view writes a
    title. *)
Theorem app_keeps_unique_titles (rt : Runtime) (path : string)
    (req : Request) (w : World) :
  unique_titles (db w) → unique_titles (db (app rt path req w).2).
Proof.
  apply (app_world_ind rt (λ _ w w',
           unique_titles (db w) → unique_titles (db w'))); clear.
  - done.
  - intros req w. apply unique_titles_from. intros k m' Hm'.
    destruct (home_db req w k) as (r & Hr & _). rewrite Hm' in Hr.
    destruct (db w !! k) as [m|]; [|done]. exists m. split; [done|].
    simpl in Hr. by simplify_eq.
  - intros req w. by rewrite add_movie_db.
  - intros req w.
    destruct (rate_movie_db rt req w) as [->|(k0 & m0 & x & Hm0 & ->)]; [done|].
    apply unique_titles_from. intros k m' Hm'.
    apply lookup_insert_Some in Hm' as [[<- <-]|[_ Hm']]; eauto.
  - intros req w Hp. by rewrite delete_movie_db.
  - intros req w Hs.
    destruct (find_movie_db rt req w)
      as [->|(m1 & _ & _ & _ & Hfree & _ & ->)]; [done|].
    intros k1 k2 m m' H1 H2 Ht.
    apply lookup_insert_Some in H1 as [[<- <-]|[Hn1 H1]];
      apply lookup_insert_Some in H2 as [[<- <-]|[Hn2 H2]].
    + done.
    + by destruct (Hfree k2 m' H2).
    + by destruct (Hfree k1 m H1).
    + by apply (Hs k1 k2 m m').
Qed.

Lemma sample_unique_titles : unique_titles Sample.table.
Proof.
  intros k1 k2 m1 m2 H1 H2 Ht. unfold Sample.table in H1, H2.
  repeat (apply lookup_insert_Some in H1 as [[<- <-]|[_ H1]]);
    try (apply lookup_singleton_Some in H1 as [<- <-]);
    repeat (apply lookup_insert_Some in H2 as [[<- <-]|[_ H2]]);
    try (apply lookup_singleton_Some in H2 as [<- <-]);
    done.
Qed.

Lemma app_keeps_unique_titles_witness :
  unique_titles (db (app Sample.runtime "/find"
                       (Sample.request GET (Some "438631"%string))
                       Sample.world).2).
Proof.
  exact (app_keeps_unique_titles Sample.runtime "/find"
           (Sample.request GET (Some "438631"%string)) Sample.world
           sample_unique_titles).
Defined.

Section calls.
Context (rt : Runtime).
Implicit Types (w : World) (req : Request).

Lemma home_sent req w : sent (home req w).2 = sent w.
Proof. by rewrite home_unfold. Qed.

Lemma add_movie_sent req w :
  sent (add_movie rt req w).2 = sent w ∨
  sent (add_movie rt req w).2 = sent w ++ [search_call rt (title_data req)].
Proof.
  unfold add_movie. destruct (FindMovieForm.validate_on_submit req); [|by left].
  right. destruct (search_api rt _) as [|st [body|]|st]; try done.
  by destruct (body !! "results"%string).
Qed.

Lemma rate_movie_sent req w : sent (rate_movie rt req w).2 = sent w.
Proof.
  unfold rate_movie.
  destruct (get_or_404 rt (db w) (arg_id req)) as [e|[k m]]; [done|].
  destruct (RateMovieForm.validate_on_submit req); [|done].
  destruct (rating_data req) as [text|]; [|done].
  by destruct (py_float rt text).
Qed.

Lemma delete_movie_sent req w : sent (delete_movie rt req w).2 = sent w.
Proof.
  unfold delete_movie.
  destruct (get_or_404 rt (db w) (arg_id req)) as [e|[k m]]; [done|].
  by destruct (method req).
Qed.

Lemma find_movie_sent req w :
  sent (find_movie rt req w).2 = sent w ∨
  sent (find_movie rt req w).2 = sent w ++ [info_call rt (arg_id req)].
Proof.
  unfold find_movie, find_movie_with.
  destruct (Py.truthy (arg_id req)); [|by left]. right.
  destruct (info_api rt _) as [|st [data|]|st]; try done.
  destruct (new_movie _ data) as [e|[[[[t|] y] img] [d|]]]; try done.
  by destruct (insert_movie _ _) as [e|[k s]].
Qed.

End calls.

(** X3.  At most one provider call per request.  Whatever the request, the
    calls sent after it are the calls sent before it, or those followed by
    one more: the search for the title of the form, or the detail call for
    the [id] of the request.  Nothing is sent twice and nothing already sent
    is dropped. *)
Theorem app_sends_at_most_one_call (rt : Runtime) (path : string)
    (req : Request) (w : World) :
  sent (app rt path req w).2 = sent w ∨
  sent (app rt path req w).2 = sent w ++ [search_call rt (title_data req)] ∨
  sent (app rt path req w).2 = sent w ++ [info_call rt (arg_id req)].
Proof.
  apply (app_world_ind rt (λ req w w',
           sent w' = sent w ∨
           sent w' = sent w ++ [search_call rt (title_data req)] ∨
           sent w' = sent w ++ [info_call rt (arg_id req)])); clear path req w.
  - auto.
  - intros req w. left. apply home_sent.
  - intros req w. destruct (add_movie_sent rt req w); auto.
  - intros req w. left. apply rate_movie_sent.
  - intros req w _. left. apply delete_movie_sent.
  - intros req w. destruct (find_movie_sent rt req w); auto.
Qed.

(** X4.  The rule [/delete] changes no row.  Whatever the request, the
    table and the calls sent are after it what they were before; a POST, the
    one method on which the view would delete, is refused by the URL map
    with 405 before the view runs. *)
Theorem delete_route_is_inert (rt : Runtime) (req : Request) (w : World) :
  db (app rt "/delete" req w).2 = db w ∧
  sent (app rt "/delete" req w).2 = sent w ∧
  (method req = POST →
   app rt "/delete" req w = (Raises MethodNotAllowed, w)).
Proof.
  split; [apply delete_route_never_deletes|]. split.
  - unfold app. simpl.
    destruct (route_cases [GET] (delete_movie rt) req w) as [-> | [-> | ->]];
      rewrite ?make_response_snd; try done. apply delete_movie_sent.
  - intros Hp. unfold app. simpl. unfold route. by rewrite Hp.
Qed.

(** ** Rating, once more *)

(** X7.  Sending the same rate form twice.  Whatever the request and the
    table, running [rate_movie] again on the world it left gives the same
    outcome and the same world as the first run: a rating is overwritten by
    itself, an error is the same error. *)
Theorem rate_movie_idempotent (rt : Runtime) (req : Request) (w : World) :
  rate_movie rt req (rate_movie rt req w).2 = rate_movie rt req w.
Proof.
  unfold rate_movie at 2 3.
  destruct (get_or_404 rt (db w) (arg_id req)) as [e|[k m]] eqn:E.
  { simpl. unfold rate_movie. by rewrite E. }
  destruct (RateMovieForm.validate_on_submit req) eqn:Hv;
    [|simpl; unfold rate_movie; by rewrite E, Hv].
  destruct (rating_data req) as [text|] eqn:Ht;
    [|simpl; unfold rate_movie; by rewrite E, Hv, Ht].
  destruct (py_float rt text) as [x|] eqn:Hx;
    [|simpl; unfold rate_movie; by rewrite E, Hv, Ht, Hx].
  simpl. apply get_or_404_inr in E as [Hk Hm].
  unfold rate_movie, get_or_404. rewrite Hk. simpl.
  rewrite lookup_insert_eq, Hv, Ht, Hx. simpl.
  unfold set_db. simpl. by rewrite insert_insert_eq.
Qed.

(** ** Reading, once more *)

(** X8.  A read writes ranks and nothing else.  [home] sends no call and
    flashes nothing; every row is after it the row it was with a rank put
    in, a number from 1 to the number of rows, and no key appears or
    disappears. *)
Theorem home_changes_only_ranking (req : Request) (w : World) :
  sent (home req w).2 = sent w ∧ flashed (home req w).2 = flashed w ∧
  ∀ k, ∃ r, db (home req w).2 !! k = set_ranking (Some r) <$> db w !! k ∧
            (is_Some (db w !! k) → 1 ≤ r ≤ Z.of_nat (size (db w))).
Proof.
  split; [apply home_sent|]. split; [by rewrite home_unfold|].
  intros k. apply home_db.
Qed.

Lemma rank_after_home_place req w k r :
  rank_after_home req w k = Some r →
  ∃ i m, order_by_rating_desc (db w) !! i = Some (k, m) ∧ r = Z.of_nat i + 1.
Proof.
  unfold rank_after_home. intros Hr.
  destruct (db w !! k) as [m|] eqn:Hm.
  - apply order_by_rating_desc_elem, list_elem_of_lookup_1 in Hm as [i Hi].
    rewrite (home_rank req w i k m Hi) in Hr. simpl in Hr.
    exists i, m. split; [done|]. by simplify_eq.
  - apply not_elem_of_dom in Hm. rewrite <-(home_dom req w) in Hm.
    apply not_elem_of_dom in Hm. by rewrite Hm in Hr.
Qed.

(** X9.  The better rated film has the smaller rank.  In a table whose
    ratings are NULL or numbers, for any two rows of which the first has the
    strictly higher rating, or a rating where the second has none, the rank
    [home] stores for the first is strictly smaller than the rank it stores
    for the second. *)
Theorem higher_rating_lower_rank (req : Request) (w : World)
    (k1 k2 : Z) (m1 m2 : Movie) :
  stored_ratings (db w) →
  db w !! k1 = Some m1 → db w !! k2 = Some m2 →
  Real.lt (rating m2) (rating m1) = true →
  ∃ r1 r2, rank_after_home req w k1 = Some r1 ∧
           rank_after_home req w k2 = Some r2 ∧ r1 < r2.
Proof.
  intros Hst H1 H2 Hlt.
  apply order_by_rating_desc_elem, list_elem_of_lookup_1 in H1 as [i1 I1].
  apply order_by_rating_desc_elem, list_elem_of_lookup_1 in H2 as [i2 I2].
  pose proof (page_order w i1 i2 _ _ Hst I1 I2 Hlt) as Hi.
  exists (Z.of_nat i1 + 1), (Z.of_nat i2 + 1). unfold rank_after_home.
  rewrite (home_rank req w i1 k1 m1 I1), (home_rank req w i2 k2 m2 I2).
  simpl. repeat split; try done. lia.
Qed.

Lemma higher_rating_lower_rank_witness :
  ∃ r1 r2, rank_after_home (Sample.request GET None) Sample.world 3 = Some r1 ∧
           rank_after_home (Sample.request GET None) Sample.world 2 = Some r2 ∧
           r1 < r2.
Proof.
  exact (higher_rating_lower_rank (Sample.request GET None) Sample.world 3 2
           (Sample.movie "Dune" (Some 9%float)) (Sample.movie "Tenet" None)
           sample_stored_ratings eq_refl eq_refl eq_refl).
Defined.

(** X10.  No two films share a rank.  Two different keys for which the
    table holds a rank after [home] hold different ranks. *)
Theorem home_ranks_distinct (req : Request) (w : World) (k1 k2 r1 r2 : Z) :
  k1 ≠ k2 →
  rank_after_home req w k1 = Some r1 → rank_after_home req w k2 = Some r2 →
  r1 ≠ r2.
Proof.
  intros Hne H1 H2 Hr.
  apply rank_after_home_place in H1 as (i1 & m1 & I1 & ->).
  apply rank_after_home_place in H2 as (i2 & m2 & I2 & ->).
  assert (i1 = i2) as -> by lia. rewrite I1 in I2. by simplify_eq.
Qed.

Lemma home_ranks_distinct_witness : (2 : Z) ≠ 3.
Proof.
  exact (home_ranks_distinct (Sample.request GET None) Sample.world 1 4 2 3
           ltac:(discriminate) eq_refl eq_refl).
Defined.

(** ** Creating, once more *)

(** X11.  [find_movie] adds one row or none.  Either the table is after it
    what it was before, and then the view returned nothing or ended in an
    exception; or the view redirects to the rate form of a key that had no
    row, and the table is the one before with one row more under that key,
    a row without rating, review or ranking whose title no other row has. *)
Theorem find_movie_adds_one_or_none (rt : Runtime) (req : Request) (w : World) :
  (db (find_movie rt req w).2 = db w ∧
   ((find_movie rt req w).1 = Returns None ∨
    ∃ e, (find_movie rt req w).1 = Raises e))
  ∨
  ∃ k m, db w !! k = None ∧
         (find_movie rt req w).1 = Returns (Some (redirect (url_for_rate_movie k))) ∧
         db (find_movie rt req w).2 = <[k := m]> (db w) ∧
         size (db (find_movie rt req w).2) = S (size (db w)) ∧
         rating m = None ∧ review m = None ∧ ranking m = None ∧
         (∀ k0 m0, db w !! k0 = Some m0 → title m0 ≠ title m).
Proof.
  unfold find_movie, find_movie_with.
  destruct (Py.truthy (arg_id req)); [|left; auto].
  destruct (info_api rt _) as [|st [data|]|st]; try (left; simpl; by eauto).
  destruct (new_movie _ data) as [e|[[[[t|] y] img] [d|]]];
    try (left; simpl; by eauto).
  unfold insert_movie. destruct (title_taken _ _) eqn:E;
    [left; simpl; by eauto|].
  right. eexists _, _. simpl.
  split; [apply next_id_fresh|]. split; [done|]. split; [done|].
  split; [apply map_size_insert_None, next_id_fresh|].
  repeat split; try done. simpl.
  intros k0 m0 Hm0 Ht. apply not_true_iff_false in E. apply E.
  apply title_taken_spec. eauto.
Qed.

(** X12.  [/find] without an id is an error of the server.  On a GET or
    HEAD of [/find] whose [id] is missing or empty the view returns nothing,
    which Flask answers with a TypeError; the world is unchanged. *)
Theorem find_route_without_id_is_an_error
    (rt : Runtime) (req : Request) (w : World) :
  method req = GET ∨ method req = HEAD →
  arg_id req = None ∨ arg_id req = Some ""%string →
  app rt "/find" req w = (Raises TypeError, w).
Proof.
  intros Hm Hid. unfold app. simpl. unfold route.
  assert (find_movie rt req w = (Returns None, w)) as Hf.
  { unfold find_movie, find_movie_with. by destruct Hid as [-> | ->]. }
  destruct Hm as [-> | ->]; simpl; by rewrite Hf.
Qed.

Lemma find_route_without_id_is_an_error_witness :
  app Sample.runtime "/find" (Sample.request HEAD (Some ""%string)) Sample.world
  = (Raises TypeError, Sample.world).
Proof.
  apply (find_route_without_id_is_an_error Sample.runtime
           (Sample.request HEAD (Some ""%string)) Sample.world).
  - right. reflexivity.
  - right. reflexivity.
Defined.

(** X13.  A method a rule does not list.  On any of the five rules, PUT,
    PATCH and DELETE, and on [/], [/delete] and [/find] also POST, are
    answered 405 before any view runs: the world is unchanged. *)
Theorem app_refuses_unlisted_methods
    (rt : Runtime) (path : string) (req : Request) (w : World) :
  path ∈ rules →
  method req ∈ [PUT; PATCH; DELETE] ∨
  (method req = POST ∧ path ∈ ["/"; "/delete"; "/find"]%string) →
  app rt path req w = (Raises MethodNotAllowed, w).
Proof.
  intros Hp Hm. unfold rules in Hp.
  repeat (apply elem_of_cons in Hp as [-> | Hp]);
    try (by apply elem_of_nil in Hp);
    unfold app; simpl; unfold route;
    (destruct Hm as [Hm | [-> Hm]];
     [repeat (apply elem_of_cons in Hm as [-> | Hm]);
        [done..|by apply elem_of_nil in Hm]
     |repeat (apply elem_of_cons in Hm as [Hm | Hm]);
        try discriminate Hm; try done; by apply elem_of_nil in Hm]).
Qed.

Lemma app_refuses_unlisted_methods_witness :
  app Sample.runtime "/edit" (Sample.request DELETE (Some "1"%string)) Sample.world
  = (Raises MethodNotAllowed, Sample.world).
Proof.
  apply (app_refuses_unlisted_methods Sample.runtime "/edit"
           (Sample.request DELETE (Some "1"%string)) Sample.world).
  - unfold rules. do 2 right. left.
  - left. do 2 right. left.
Defined.

(** ** The pieces of a release date *)

Lemma join_cons (sep : ascii) (w : string) (ws : list string) :
  ws ≠ [] → join sep (w :: ws) = (w ++ String sep (join sep ws))%string.
Proof. by destruct ws. Qed.

(** X15.  Splitting loses nothing.  The pieces [split] cuts a text into,
    put together again with the separator between them, are the text; no
    piece holds the separator, and there is always at least one piece. *)
Theorem split_join (sep : ascii) (s : string) :
  join sep (Py.split sep s) = s ∧
  Forall (λ piece, occurs sep piece = false) (Py.split sep s) ∧
  Py.split sep s ≠ [].
Proof.
  split; [|split; [|apply split_not_nil]].
  - induction s as [|c s IH]; [done|]. simpl.
    destruct (Ascii.eqb c sep) eqn:E.
    + apply Ascii.eqb_eq in E as ->.
      rewrite join_cons by apply split_not_nil. by rewrite IH.
    + pose proof (split_not_nil sep s) as Hne.
      destruct (Py.split sep s) as [|piece ws]; [done|].
      destruct ws as [|piece' ws]; simpl in *; by rewrite <-IH.
  - induction s as [|c s IH]; simpl; [by repeat constructor|].
    destruct (Ascii.eqb c sep) eqn:E; [by constructor|].
    destruct (Py.split sep s) as [|piece ws];
      [constructor; [simpl; by rewrite E|constructor]|].
    apply Forall_cons in IH as [Hp Hws]. constructor; [|done].
    simpl. by rewrite E, Hp.
Qed.

(** ** Texts of white space *)

Section blank_facts.













End blank_facts.



(** ** A rating that is no number *)

(** X5.  A film rated NaN is an unrated film.  When the rating text of a
    valid form is one [float] reads as NaN, the row is left with no rating,
    and on the next read every row that has a rating gets a smaller rank
    than it. *)
Theorem nan_rating_is_no_rating
    (rt : Runtime) (req req' : Request) (w : World) (k : Z) (m : Movie)
    (text : string) (x : float) :
  stored_ratings (db w) →
  named_key rt req = Some k → db w !! k = Some m →
  RateMovieForm.validate_on_submit req = true →
  rating_data req = Some text → py_float rt text = Some x →
  is_nan x = true →
  let w1 := (rate_movie rt req w).2 in
  (rating <$> db w1 !! k) = Some None ∧
  ∀ k2 m2 y, db w1 !! k2 = Some m2 → rating m2 = Some y →
    ∃ r r2, rank_after_home req' w1 k = Some r ∧
            rank_after_home req' w1 k2 = Some r2 ∧ r2 < r.
Proof.
  intros Hs Hk Hm Hv Ht Hx Hn w1.
  assert (db w1 = <[k := set_rating_review None (review_data req) m]> (db w))
    as Hdb.
  { subst w1. unfold rate_movie.
    rewrite (get_or_404_found rt req w k m Hk Hm), Hv, Ht, Hx. simpl.
    unfold Real.bind. by rewrite Hn. }
  assert (stored_ratings (db w1)) as Hs1.
  { intros k' m' Hm'. rewrite Hdb in Hm'.
    apply lookup_insert_Some in Hm' as [[_ <-]|[_ Hm']]; [done|].
    by apply (Hs k' m'). }
  assert (db w1 !! k = Some (set_rating_review None (review_data req) m)) as Hrow.
  { rewrite Hdb. apply lookup_insert_eq. }
  split; [by rewrite Hrow|].
  intros k2 m2 y H2 Hy.
  apply order_by_rating_desc_elem, list_elem_of_lookup_1 in Hrow as [i Ii].
  apply order_by_rating_desc_elem, list_elem_of_lookup_1 in H2 as [i2 I2].
  assert (i2 < i)%nat as Hlt.
  { apply (page_order w1 i2 i _ _ Hs1 I2 Ii). simpl. by rewrite Hy. }
  exists (Z.of_nat i + 1), (Z.of_nat i2 + 1). unfold rank_after_home.
  rewrite (home_rank req' w1 i k _ Ii), (home_rank req' w1 i2 k2 m2 I2).
  simpl. repeat split; try done. lia.
Qed.

Lemma nan_rating_is_no_rating_witness :
  (rating <$> db (rate_movie Sample.runtime_wide (Sample.rate_form "nan")
                    Sample.world).2 !! 1) = Some None.
Proof.
  apply (nan_rating_is_no_rating Sample.runtime_wide (Sample.rate_form "nan")
           (Sample.request GET None) Sample.world 1
           (Sample.movie "Alien" (Some 7.5%float)) "nan" (0 / 0)%float
           sample_stored_ratings eq_refl eq_refl eq_refl eq_refl eq_refl eq_refl).
Defined.

(** The column drops the sign of a zero. *)
Example rate_movie_negative_zero :
  (rating <$> db (rate_movie Sample.runtime_wide (Sample.rate_form "-0.0")
                    Sample.world).2 !! 1) = Some (Some 0%float).
Proof. reflexivity. Qed.

Example bind_negative_zero : Real.bind neg_zero = Some 0%float.
Proof. reflexivity. Qed.

(** ** Building the row, case by case *)

(** X14.  What [Movie(...)] is built from, and when it is not built.  The
    arguments are computed exactly when all four members are in the detail
    object and the release date is text: then title and overview are passed
    on as they are (null included), the year is the text in front of the
    first dash, and the image URL is the base followed by the poster path,
    or, for a null poster path, by the word None.  Otherwise the exception
    is a KeyError for a member that is missing, or an AttributeError for a
    release date that is null. *)
Theorem new_movie_cases (image_url : string)
    (data : gmap string (option string)) :
  match new_movie image_url data with
  | inr (t, y, img, d) =>
      data !! "title"%string = Some t ∧
      (∃ rd, data !! "release_date"%string = Some (Some rd) ∧
             before_first_dash y rd) ∧
      (∃ pp, data !! "poster_path"%string = Some pp ∧
             img = match pp with
                   | Some p => (image_url ++ p)%string
                   | None => (image_url ++ "None")%string
                   end) ∧
      data !! "overview"%string = Some d
  | inl (KeyError key) =>
      data !! key = None ∧
      key ∈ ["title"; "release_date"; "poster_path"; "overview"]%string
  | inl AttributeError =>
      data !! "release_date"%string = Some None ∧
      is_Some (data !! "title"%string)
  | inl _ => False
  end.
Proof.
  unfold new_movie, getitem.
  destruct (data !! "title"%string) as [t|] eqn:Ht;
    [|split; [done|by left]].
  destruct (data !! "release_date"%string) as [[rd|]|] eqn:Hrd;
    [|by eauto|split; [done|right; by left]].
  destruct (split_head rd) as (y & Hy & Hb). rewrite Hy.
  destruct (data !! "poster_path"%string) as [pp|] eqn:Hpp;
    [|split; [done|do 2 right; by left]].
  destruct (data !! "overview"%string) as [d|] eqn:Hd;
    [|split; [done|do 3 right; by left]].
  split; [done|]. split; [by exists rd|]. split; [|done].
  exists pp. split; [done|]. by destruct pp.
Qed.

(** ** From the provider's answer to a rated row *)

(** X17.  Creating a row and rating it.  When the provider answers the
    detail call with text in all four members and a title no row has,
    [find_movie] redirects to the rate form of a key that had no row; a valid
    rate form naming that key whose rating text [float] reads as [x] then
    redirects home and leaves under the key a row with the provider's title
    and overview, the image base followed by the poster path, the rating the
    column keeps for [x], the review of the form and no ranking yet, every
    other key holding what it held before the two requests. *)
Theorem create_then_rate (rt : Runtime) (req req' : Request) (w : World)
    (status : Z) (data : gmap string (option string))
    (t rd pp ov text : string) (x : float) :
  Py.truthy (arg_id req) = true →
  info_api rt (info_call rt (arg_id req)) = Reply status (Some data) →
  data !! "title"%string = Some (Some t) →
  data !! "release_date"%string = Some (Some rd) →
  data !! "poster_path"%string = Some (Some pp) →
  data !! "overview"%string = Some (Some ov) →
  (∀ k m0, db w !! k = Some m0 → title m0 ≠ t) →
  RateMovieForm.validate_on_submit req' = true →
  rating_data req' = Some text → py_float rt text = Some x →
  ∃ k, (find_movie rt req w).1
         = Returns (Some (redirect (url_for_rate_movie k))) ∧
       db w !! k = None ∧
       (named_key rt req' = Some k →
        (rate_movie rt req' (find_movie rt req w).2).1
          = Returns (Some (redirect url_for_home)) ∧
        (∃ m', db (rate_movie rt req' (find_movie rt req w).2).2 !! k = Some m' ∧
               title m' = t ∧ description m' = ov ∧
               img_url m' = (MOVIE_DB_IMAGE_URL ++ pp)%string ∧
               rating m' = Real.bind x ∧ review m' = review_data req' ∧
               ranking m' = None) ∧
        (∀ k', k' ≠ k →
           db (rate_movie rt req' (find_movie rt req w).2).2 !! k' = db w !! k')).
Proof.
  intros Hid Hr Ht Hrd Hpp Hov Hfree Hv Htext Hx.
  destruct (find_movie_creates rt req w status data t rd pp ov
              Hid Hr Ht Hrd Hpp Hov Hfree) as (y & Hy & Hout & Hnone & Hdb).
  exists (next_id (db w)). split; [done|]. split; [done|]. intros Hk.
  unfold rate_movie.
  rewrite (get_or_404_found rt req' _ (next_id (db w)) _ Hk
             ltac:(rewrite Hdb; apply lookup_insert_eq)).
  rewrite Hv, Htext, Hx. simpl. split; [done|]. split.
  - eexists. split; [apply lookup_insert_eq|]. done.
  - intros k' Hne. rewrite lookup_insert_ne by done.
    rewrite Hdb. by rewrite lookup_insert_ne.
Qed.

Lemma create_then_rate_witness :
  ∃ k, (find_movie Sample.runtime (Sample.request GET (Some "438631"%string))
          Sample.empty_world).1
       = Returns (Some (redirect (url_for_rate_movie k))) ∧
       db Sample.empty_world !! k = None.
Proof.
  destruct (create_then_rate Sample.runtime
              (Sample.request GET (Some "438631"%string)) Sample.rate_1
              Sample.empty_world 200 Sample.dune_detail
              "Dune" "2021-10-22" "/abc.jpg"
              "A duke's son leads desert warriors." "8.5" 8.5%float
              eq_refl eq_refl eq_refl eq_refl eq_refl eq_refl
              ltac:(intros k m0 H; simpl in H; by rewrite lookup_empty in H)
              eq_refl eq_refl eq_refl)
    as (k & Hout & Hnone & _).
  exists k. exact (conj Hout Hnone).
Defined.

(** ** The form token *)

(** X18.  Without a good token nothing is written and nothing is searched.
    When the CSRF token of the request does not check, whatever the method
    and the fields, [rate_movie] ends in NotFound if the [id] names no row
    and otherwise shows the rate form for the row it names, the world being
    left as it is in both cases; [add_movie] shows its form again without
    calling the provider. *)
Theorem forms_need_the_token (rt : Runtime) (req : Request) (w : World) :
  csrf_ok req = false →
  ((rate_movie rt req w = (Raises NotFound, w) ∧
    ∀ k, named_key rt req = Some k → db w !! k = None)
   ∨
   ∃ k m, named_key rt req = Some k ∧ db w !! k = Some m ∧
          rate_movie rt req w
          = (Returns (Some (render_template "edit.html" (args_movie_form (k, m)))),
             w)) ∧
  add_movie rt req w = (Returns (Some (render_template "add.html" args_form)), w).
Proof.
  intros Hc.
  assert (RateMovieForm.validate_on_submit req = false) as Hr.
  { unfold RateMovieForm.validate_on_submit. rewrite Hc. apply andb_false_r. }
  assert (FindMovieForm.validate_on_submit req = false) as Hf.
  { unfold FindMovieForm.validate_on_submit. rewrite Hc. apply andb_false_r. }
  split; [|unfold add_movie; by rewrite Hf].
  destruct (named_key rt req) as [k|] eqn:Hk.
  - destruct (db w !! k) as [m|] eqn:Hm.
    + right. exists k, m. split; [done|]. split; [done|].
      unfold rate_movie. by rewrite (get_or_404_found rt req w k m Hk Hm), Hr.
    + left. split; [|by intros k' [= <-]].
      unfold rate_movie. rewrite (get_or_404_absent rt req w); [done|].
      intros k' Hk'. rewrite Hk in Hk'. by simplify_eq.
  - left. split; [|done].
    unfold rate_movie. rewrite (get_or_404_absent rt req w); [done|].
    intros k' Hk'. by rewrite Hk in Hk'.
Qed.

Lemma forms_need_the_token_witness :
  add_movie Sample.runtime Sample.forged_rating Sample.world
  = (Returns (Some (render_template "add.html" args_form)), Sample.world).
Proof.
  exact (proj2 (forms_need_the_token Sample.runtime Sample.forged_rating
                  Sample.world eq_refl)).
Defined.

Example forged_rating_shows_the_form :
  rate_movie Sample.runtime Sample.forged_rating Sample.world
  = (Returns (Some (render_template "edit.html"
                      (args_movie_form (1, Sample.movie "Alien" (Some 7.5%float))))),
     Sample.world).
Proof. reflexivity. Qed.
